(** * jjui-vscode: the toggle controller of [extension.ts]

    A shallow embedding of the VS Code extension that toggles a terminal
    running [jjui].  The repository carries two versions of the extension
    module: [src/extension.ts] and a second, unnamed copy (called
    [part_000] below).  They share most functions and differ in
    [createWindow] and [getWorkspaceFolder]; the shared functions are
    embedded once, the differing ones in [Module Extension] and
    [Module Part000].

    Strings are sequences of code units below 256 ([string] of the
    Standard Library).  The variables of the environment are a finite
    map from names to values; [process.env] looks a name up there and
    then, like any object, on its prototype chain. *)

From Stdlib Require Import Ascii String Arith Lia.
From stdpp Require Import base decidable option list strings gmap.

Local Open Scope stdpp_scope.

(** ** Strings *)

(** [s.slice(n)] *)
Fixpoint slice (n : nat) (s : string) : string :=
  match n, s with
  | S k, String _ r => slice k r
  | _, _ => s
  end.

(** The longest prefix of [s] whose characters satisfy [p], and the rest. *)
Fixpoint span (p : ascii → bool) (s : string) : string * string :=
  match s with
  | String c r =>
      if p c then let '(a, b) := span p r in (String c a, b) else ("", s)
  | "" => ("", "")
  end.

(** Every character of [s] satisfies [p]. *)
Fixpoint allChars (p : ascii → bool) (s : string) : bool :=
  match s with
  | String c r => p c && allChars p r
  | "" => true
  end.

(** [s] is empty or starts with a character that does not satisfy [p]. *)
Definition stopsAt (p : ascii → bool) (s : string) : bool :=
  match s with
  | String c _ => negb (p c)
  | "" => true
  end.

(** ** Regular-expression replacement

    [String.prototype.replace] with a global pattern scans the subject from
    left to right; where the pattern matches, the match is replaced by the
    result of the callback on the capture group and the scan resumes after
    the match; elsewhere the character is copied.  A pattern is given by
    its matcher at the current position, which returns the capture group
    and the length of the match.  Both patterns below consume at least one
    character, so no empty match arises. *)

Fixpoint replaceFrom (re : string → option (string * nat)) (fn : string → string)
    (skip : nat) (s : string) : string :=
  match s with
  | "" => ""
  | String c r =>
      match skip with
      | S k => replaceFrom re fn k r
      | 0 =>
          match re s with
          | Some (cap, S k) => fn cap +:+ replaceFrom re fn k r
          | _ => String c (replaceFrom re fn 0 r)
          end
      end
  end.

Definition replaceAll (re : string → option (string * nat)) (fn : string → string)
    (s : string) : string :=
  replaceFrom re fn 0 s.

(** [[A-Za-z0-9_]] *)
Definition isWordChar (c : ascii) : bool :=
  let n := nat_of_ascii c in
  ((65 <=? n) && (n <=? 90)) || ((97 <=? n) && (n <=? 122))
  || ((48 <=? n) && (n <=? 57)) || (n =? 95).

(** [[^%]] *)
Definition notPercent (c : ascii) : bool := negb (c =? "%")%char.

(** [/%([^%]+)%/] at the start of [s].  The greedy [[^%]+] takes the whole
    run of characters other than [%]; giving characters back cannot help,
    since the character after a shorter run is not [%]. *)
Definition matchPercent (s : string) : option (string * nat) :=
  match s with
  | String c r =>
      if (c =? "%")%char then
        let '(name, r') := span notPercent r in
        match name, r' with
        | String _ _, String d _ =>
            if (d =? "%")%char then Some (name, String.length name + 2) else None
        | _, _ => None
        end
      else None
  | "" => None
  end.

(** [/\$([A-Za-z0-9_]+)/] at the start of [s]. *)
Definition matchDollar (s : string) : option (string * nat) :=
  match s with
  | String c r =>
      if (c =? "$")%char then
        let '(name, _) := span isWordChar r in
        match name with
        | String _ _ => Some (name, String.length name + 1)
        | "" => None
        end
      else None
  | "" => None
  end.

(** The replacement text of [replace] with a string (not a callback) as
    second argument, for a pattern without capture groups: [$$] is a
    dollar sign, [$&] the match, [$`] the text before the match, [$'] the
    text after it; any other [$] stands for itself. *)
Fixpoint getSubstitution (matched before after replacement : string) : string :=
  match replacement with
  | "" => ""
  | String c r =>
      if (c =? "$")%char then
        match r with
        | String d r' =>
            if (d =? "$")%char then String "$" (getSubstitution matched before after r')
            else if (d =? "&")%char then matched +:+ getSubstitution matched before after r'
            else if (d =? "`")%char then before +:+ getSubstitution matched before after r'
            else if (d =? "'")%char then after +:+ getSubstitution matched before after r'
            else String c (getSubstitution matched before after r)
        | "" => String c ""
        end
      else String c (getSubstitution matched before after r)
  end.

(** [/^~(?=$|\/|\\)/]: a leading tilde followed by the end of the string,
    a slash or a backslash. *)
Definition matchTilde (s : string) : bool :=
  match s with
  | String c r =>
      (c =? "~")%char &&
      match r with
      | "" => true
      | String d _ => (d =? "/")%char || (d =? "\")%char
      end
  | "" => false
  end.

(** ** The platform: [os] and [process]

    [env p] holds the variables of the environment: [env p !! n] is the
    value the environment has for the name [n], [None] when the variable
    is unset. *)

Record Platform := {
  homedir : string;              (* os.homedir() *)
  env : gmap string string;      (* the variables behind process.env *)
  win32 : bool;                  (* process.platform === "win32" *)
}.

(** The text of a built-in function, [String(f)]. *)
Definition nativeFunction (name : string) : string :=
  "function " +:+ name +:+ "() { [native code] }".

(** [process.env] is an object.  A name that is no variable of the
    environment is looked up like any other property name and found on
    the prototype chain when it names something there: the constructor
    of the environment object (a function without a name), the accessor
    [__proto__] (which gives the prototype, an object) or one of the
    methods of [Object.prototype].  [envPrototype n] is the text of
    what the name [n] finds there, [None] when the lookup gives
    [undefined]. *)
Definition envPrototype (n : string) : option string :=
  if bool_decide (n = "constructor") then Some (nativeFunction "")
  else if bool_decide (n = "__proto__") then Some "[object Object]"
  else if bool_decide (n ∈ ["toString"; "toLocaleString"; "valueOf";
                            "hasOwnProperty"; "isPrototypeOf";
                            "propertyIsEnumerable";
                            "__defineGetter__"; "__defineSetter__";
                            "__lookupGetter__"; "__lookupSetter__"])
  then Some (nativeFunction n)
  else None.

(** [process.env[n] || ""], as the text [replace] puts in.  A variable
    that is set gives its value (the empty value is falsy and gives the
    empty string all the same).  A function or an object found on the
    prototype chain is truthy, so it is what the callback returns, and
    [replace] converts it to its text.  Only [undefined] gives the empty
    string. *)
Definition envOr (p : Platform) (n : string) : string :=
  match env p !! n with
  | Some v => v
  | None =>
      match envPrototype n with
      | Some text => text
      | None => ""
      end
  end.

(** [pth.replace(/^~(?=$|\/|\\)/, os.homedir())] *)
Definition expandTilde (p : Platform) (pth : string) : string :=
  if matchTilde pth then
    match pth with
    | String _ r => getSubstitution "~" "" r (homedir p) +:+ r
    | "" => pth
    end
  else pth.

(** [.replace(/%([^%]+)%/g, (_, n) => process.env[n] || "")] *)
Definition expandPercent (p : Platform) (s : string) : string :=
  replaceAll matchPercent (envOr p) s.

(** [.replace(/\$([A-Za-z0-9_]+)/g, (_, n) => process.env[n] || "")] *)
Definition expandDollar (p : Platform) (s : string) : string :=
  replaceAll matchDollar (envOr p) s.

Definition expandPath (p : Platform) (pth : string) : string :=
  let pth := expandTilde p pth in
  expandDollar p (expandPercent p pth).


(** ** Configuration *)

Inductive PanelBehavior := keep | hide | hideRestore.

Record PanelOptions := {
  sidebar : PanelBehavior;
  panel : PanelBehavior;
  secondarySidebar : PanelBehavior;
}.

Record JJUIConfig := {
  jjuiPath : string;
  autoMaximizeWindow : bool;
  panels : PanelOptions;
}.

Global Instance PanelBehavior_eq_dec : EqDecision PanelBehavior.
Proof. solve_decision. Defined.

(** The settings under [jjui-vscode] as the host stores them; [None] where
    the user has set nothing. *)
Record Settings := {
  setting_jjuiPath : option string;
  setting_autoMaximizeWindow : option bool;
  setting_panels : string → option PanelBehavior;
}.

(** ** The host: what [vscode], [fs], [path] and [child_process] answer
    during one callback

    Callbacks run one at a time on the host's event queue.  The answers
    of the host are taken to be the same from the start of a callback to
    its end, across its [await]s too: no other callback runs in
    between. *)

Definition Uri := string.
Definition Terminal := nat.

Record WorkspaceFolder := { fsPath : string }.   (* folder.uri.fsPath *)

Record TabGroup := { tabs : list string }.

Record Host := {
  platform : Platform;
  settings : Settings;                              (* workspace.getConfiguration *)
  exec : string → option string;                    (* stdout, [None] on error *)
  activeTextEditor : option Uri;                    (* the document's uri *)
  activeNotebookEditor : option Uri;                (* the notebook's uri *)
  workspaceFolders : option (list WorkspaceFolder);
  folderOf : Uri → option WorkspaceFolder;          (* workspace.getWorkspaceFolder *)
  pathJoin : string → string → string;              (* path.join *)
  existsSync : string → bool;                       (* fs.existsSync *)
  activeTerminal : option Terminal;
  tabGroups : list TabGroup;                        (* window.tabGroups.all *)
}.

(** ** Requests to the host *)

Inductive Timer :=
  | FocusEditorGroup            (* the callback of [onHide] *)
  | Refocus                     (* the callback of [createWindow] in extension.ts *)
  | PollFocus (focusAttempts : nat).   (* [pollFocus] in part_000 *)

Inductive Effect :=
  | executeCommand (command : string)
  | setContext (key : string) (value : bool)
  | showErrorMessage (message : string)
  | createTerminal (t : Terminal) (name cwd : string) (shell : option (string * list string))
  | sendText (t : Terminal) (text : string)
  | show (t : Terminal) (preserveFocus : bool)
  | dispose (t : Terminal)
  | setTimeout (callback : Timer) (ms : nat)
  | onDidCloseTerminal.

Global Instance Timer_eq_dec : EqDecision Timer.
Proof. solve_decision. Defined.

Global Instance Effect_eq_dec : EqDecision Effect.
Proof. solve_decision. Defined.

(** ** The controller's state

    The three module variables, the number of listeners registered with
    [onDidCloseTerminal] (none is ever removed), the number of terminals
    the host has handed out, and the requests made so far, oldest first. *)

Record Ctrl := {
  jjuiTerminal : option Terminal;
  globalConfig : JJUIConfig;
  globalConfigJSON : string;
  closeObservers : nat;
  terminals : nat;
  trace : list Effect;
}.

Inductive Error :=
  | AssertionError (message : string)
  | TypeError (message : string)
  | PlainError (message : string).

Inductive Outcome (A : Type) :=
  | Ok (a : A)
  | Throw (e : Error).
Arguments Ok {A} a.
Arguments Throw {A} e.

(** A computation reads and writes the controller's state and either
    returns or throws; what it did before throwing stays done. *)
Definition M (A : Type) : Type := Ctrl → Outcome A * Ctrl.

Definition ret {A} (a : A) : M A := fun s => (Ok a, s).

Definition bind {A B} (m : M A) (k : A → M B) : M B := fun s =>
  match m s with
  | (Ok a, s') => k a s'
  | (Throw e, s') => (Throw e, s')
  end.

Notation "'let*' x ':=' m 'in' k" := (bind m (fun x => k))
  (at level 10, x name, m at level 100, k at level 200).
Notation "m ';;' k" := (bind m (fun _ => k))
  (at level 100, k at level 200, right associativity).

Definition throw {A} (e : Error) : M A := fun s => (Throw e, s).

Definition get : M Ctrl := fun s => (Ok s, s).

Definition emit (e : Effect) : M unit := fun s =>
  (Ok tt, {| jjuiTerminal := jjuiTerminal s; globalConfig := globalConfig s;
             globalConfigJSON := globalConfigJSON s; closeObservers := closeObservers s;
             terminals := terminals s; trace := trace s ++ [e] |}).

Definition emits (es : list Effect) : M unit := fun s =>
  (Ok tt, {| jjuiTerminal := jjuiTerminal s; globalConfig := globalConfig s;
             globalConfigJSON := globalConfigJSON s; closeObservers := closeObservers s;
             terminals := terminals s; trace := trace s ++ es |}).

Definition setTerminal (t : option Terminal) : M unit := fun s =>
  (Ok tt, {| jjuiTerminal := t; globalConfig := globalConfig s;
             globalConfigJSON := globalConfigJSON s; closeObservers := closeObservers s;
             terminals := terminals s; trace := trace s |}).

Definition setConfig (c : JJUIConfig) (json : string) : M unit := fun s =>
  (Ok tt, {| jjuiTerminal := jjuiTerminal s; globalConfig := c;
             globalConfigJSON := json; closeObservers := closeObservers s;
             terminals := terminals s; trace := trace s |}).

(** [globalConfig.jjuiPath = pth] *)
Definition setPath (pth : string) : M unit := fun s =>
  (Ok tt, {| jjuiTerminal := jjuiTerminal s;
             globalConfig := {| jjuiPath := pth;
                                autoMaximizeWindow := autoMaximizeWindow (globalConfig s);
                                panels := panels (globalConfig s) |};
             globalConfigJSON := globalConfigJSON s; closeObservers := closeObservers s;
             terminals := terminals s; trace := trace s |}).

(** [vscode.window.createTerminal(options)]: the host hands out a terminal
    that did not exist before. *)
Definition newTerminal (name cwd : string) (shell : option (string * list string))
    : M Terminal := fun s =>
  let t := terminals s in
  (Ok t, {| jjuiTerminal := jjuiTerminal s; globalConfig := globalConfig s;
            globalConfigJSON := globalConfigJSON s; closeObservers := closeObservers s;
            terminals := S t; trace := trace s ++ [createTerminal t name cwd shell] |}).

(** [vscode.window.onDidCloseTerminal(listener)] *)
Definition addCloseObserver : M unit := fun s =>
  (Ok tt, {| jjuiTerminal := jjuiTerminal s; globalConfig := globalConfig s;
             globalConfigJSON := globalConfigJSON s;
             closeObservers := S (closeObservers s);
             terminals := terminals s; trace := trace s ++ [onDidCloseTerminal] |}).

(** [assert(value, message)] *)
Definition assert (value : bool) (message : string) : M unit :=
  if value then ret tt else throw (AssertionError message).

(** The truth value of a string: the empty string is falsy. *)
Definition truthy (s : string) : bool :=
  match s with
  | "" => false
  | String _ _ => true
  end.

(** ** Configuration loading *)

(** [config.get(key, defaultValue)] *)
Definition getOr {A} (value : option A) (defaultValue : A) : A :=
  match value with
  | Some v => v
  | None => defaultValue
  end.

Definition getPanelBehavior (h : Host) (panelName : string) : PanelBehavior :=
  let defaultValue := if bool_decide (panelName = "secondarySidebar") then hide else keep in
  getOr (setting_panels (settings h) panelName) defaultValue.

Definition loadConfig (h : Host) : JJUIConfig :=
  {| jjuiPath := getOr (setting_jjuiPath (settings h)) "";
     autoMaximizeWindow := getOr (setting_autoMaximizeWindow (settings h)) false;
     panels := {| sidebar := getPanelBehavior h "sidebar";
                  panel := getPanelBehavior h "panel";
                  secondarySidebar := getPanelBehavior h "secondarySidebar" |} |}.

(** [JSON.stringify] of a configuration. *)

Definition dquote : ascii := ascii_of_nat 34.

Definition hexDigit (n : nat) : ascii :=
  ascii_of_nat (if n <? 10 then 48 + n else 87 + n).

Definition quoteChar (c : ascii) : string :=
  let n := nat_of_ascii c in
  if n =? 34 then String "\" (String dquote "")
  else if n =? 92 then "\\"
  else if n =? 8 then "\b"
  else if n =? 9 then "\t"
  else if n =? 10 then "\n"
  else if n =? 12 then "\f"
  else if n =? 13 then "\r"
  else if n <? 32 then "\u00" +:+ String (hexDigit (n / 16)) (String (hexDigit (n mod 16)) "")
  else String c "".

Fixpoint quoteChars (s : string) : string :=
  match s with
  | "" => ""
  | String c r => quoteChar c +:+ quoteChars r
  end.

Definition quoteJSON (s : string) : string :=
  String dquote (quoteChars s +:+ String dquote "").

Definition behaviorName (b : PanelBehavior) : string :=
  match b with
  | keep => "keep"
  | hide => "hide"
  | hideRestore => "hideRestore"
  end.

Definition stringify (c : JJUIConfig) : string :=
  "{" +:+ quoteJSON "jjuiPath" +:+ ":" +:+ quoteJSON (jjuiPath c) +:+ ","
  +:+ quoteJSON "autoMaximizeWindow" +:+ ":"
  +:+ (if autoMaximizeWindow c then "true" else "false") +:+ ","
  +:+ quoteJSON "panels" +:+ ":{"
  +:+ quoteJSON "sidebar" +:+ ":" +:+ quoteJSON (behaviorName (sidebar (panels c))) +:+ ","
  +:+ quoteJSON "panel" +:+ ":" +:+ quoteJSON (behaviorName (panel (panels c))) +:+ ","
  +:+ quoteJSON "secondarySidebar" +:+ ":"
  +:+ quoteJSON (behaviorName (secondarySidebar (panels c))) +:+ "}}".

(** ** Utils *)

(** White space and line terminators among the code units below 256. *)
Definition isSpace (c : ascii) : bool :=
  let n := nat_of_ascii c in
  ((9 <=? n) && (n <=? 13)) || (n =? 32) || (n =? 160).

Fixpoint trimStart (s : string) : string :=
  match s with
  | String c r => if isSpace c then trimStart r else s
  | "" => ""
  end.

Definition trim (s : string) : string :=
  String.rev (trimStart (String.rev (trimStart s))).

(** [s.split("\r\n")[0]] *)
Fixpoint beforeCRLF (s : string) : string :=
  match s with
  | String c r =>
      match r with
      | String d _ =>
          if (c =? "013")%char && (d =? "010")%char then "" else String c (beforeCRLF r)
      | "" => String c ""
      end
  | "" => ""
  end.

(** [s.split("\n")[0]] *)
Fixpoint beforeLF (s : string) : string :=
  match s with
  | String c r => if (c =? "010")%char then "" else String c (beforeLF r)
  | "" => ""
  end.

(** The promise of [findExecutableOnPath], settled. *)
Definition findExecutableOnPath (h : Host) (executable : string) : Outcome string :=
  let command :=
    if win32 (platform h) then "where " +:+ executable else "which " +:+ executable in
  match exec h command with
  | None => Throw (PlainError (executable +:+ " not found"))
  | Some stdout => Ok (trim (beforeLF (beforeCRLF stdout)))
  end.

Definition loadExtension (h : Host) : M unit :=
  setConfig (loadConfig h) (stringify (loadConfig h));;
  let* s := get in
  if truthy (jjuiPath (globalConfig s)) then
    setPath (expandPath (platform h) (jjuiPath (globalConfig s)))
  else
    match findExecutableOnPath h "jjui" with
    | Ok found => setPath found
    | Throw _ =>
        emit (showErrorMessage "jjui not found on PATH. Please install it or set jjuiPath.")
    end.

Definition reloadIfConfigChange (h : Host) : M unit :=
  let currentConfig := loadConfig h in
  let* s := get in
  if bool_decide (stringify currentConfig ≠ globalConfigJSON s) then loadExtension h
  else ret tt.

(** ** Window management shared by the two versions *)

Definition windowFocused (h : Host) (s : Ctrl) : bool :=
  bool_decide (activeTextEditor h = None)
  && bool_decide (activeTerminal h = jjuiTerminal s).

Definition focusWindow : M unit :=
  let* s := get in
  match jjuiTerminal s with
  | None => throw (AssertionError "Terminal undefined!")
  | Some t => emit (show t false)
  end.

Definition closeWindow (h : Host) : M unit :=
  let openTabs := length (flat_map tabs (tabGroups h)) in
  let* s := get in
  match openTabs =? 1, jjuiTerminal s with
  | true, Some t => emit (dispose t)
  | _, _ =>
      emit (executeCommand "workbench.action.openPreviousRecentlyUsedEditorInGroup")
  end.

(** ** UI logic (panels) *)

Definition shouldKeep (behavior : PanelBehavior) : bool :=
  bool_decide (behavior = keep).

Definition shouldHide (behavior : PanelBehavior) : bool :=
  bool_decide (behavior = hide) || bool_decide (behavior = hideRestore).

Definition shouldRestore (behavior : PanelBehavior) : bool :=
  bool_decide (behavior = hideRestore).

(** [if (cond) vscode.commands.executeCommand(command)] *)
Definition commandIf (cond : bool) (command : string) : list Effect :=
  if cond then [executeCommand command] else [].

(** The requests of [onShown] under a configuration. *)
Definition onShownCommands (c : JJUIConfig) : list Effect :=
  (if autoMaximizeWindow c then
     [executeCommand "workbench.action.maximizeEditorHideSidebar"]
     ++ commandIf (shouldKeep (sidebar (panels c))) "workbench.action.toggleSidebarVisibility"
   else
     commandIf (shouldHide (sidebar (panels c))) "workbench.action.closeSidebar"
     ++ commandIf (shouldHide (secondarySidebar (panels c))) "workbench.action.closeAuxiliaryBar")
  ++ commandIf (shouldHide (panel (panels c))) "workbench.action.closePanel".

Definition onShown : M unit :=
  let* s := get in emits (onShownCommands (globalConfig s)).

(** The requests of [onHide] under a configuration; the restore of the
    sidebar is commented out in the source. *)
Definition onHideCommands (c : JJUIConfig) : list Effect :=
  commandIf (shouldRestore (secondarySidebar (panels c))) "workbench.action.toggleAuxiliaryBar"
  ++ commandIf (shouldRestore (panel (panels c))) "workbench.action.togglePanel"
  ++ commandIf (autoMaximizeWindow c) "workbench.action.evenEditorWidths"
  ++ [setTimeout FocusEditorGroup 200].

Definition onHide : M unit :=
  let* s := get in emits (onHideCommands (globalConfig s)).

(** A settled promise or a call that may throw, inside a computation. *)
Definition await {A} (o : Outcome A) : M A := fun s => (o, s).

(** ** [src/extension.ts] *)

Module Extension.

Definition getWorkspaceFolder (h : Host) : string :=
  let activeDocumentUri := activeTextEditor h in
  let workspaceFolder :=
    match activeDocumentUri with
    | Some uri => folderOf h uri
    | None =>
        match workspaceFolders h with
        | Some (first :: _) => Some first
        | _ => None
        end
    end in
  match workspaceFolder with
  | Some folder => fsPath folder
  | None => homedir (platform h)
  end.

Definition createWindow (h : Host) : M unit :=
  reloadIfConfigChange h;;
  let workspaceFolder := getWorkspaceFolder h in
  let* s := get in
  assert (truthy (jjuiPath (globalConfig s))) "jjui path is undefined!";;
  let* t := newTerminal "jjui" workspaceFolder None in
  setTerminal (Some t);;
  let exitSuffix := if win32 (platform h) then "; exit" else " && exit" in
  emit (sendText t (jjuiPath (globalConfig s) +:+ exitSuffix));;
  emit (show t false);;
  emit (setTimeout Refocus 100);;
  addCloseObserver.

Definition toggleJJUI (h : Host) : M unit :=
  let* s := get in
  match jjuiTerminal s with
  | Some _ =>
      if windowFocused h s then closeWindow h;; onHide
      else focusWindow;; onShown
  | None => createWindow h;; onShown
  end.

(** The callback given to [setTimeout] in [createWindow]. *)
Definition refocus : M unit :=
  let* s := get in
  match jjuiTerminal s with
  | Some t => emit (show t false);; emit (executeCommand "workbench.action.terminal.focus")
  | None => ret tt
  end.

End Extension.

(** ** The unnamed second version, [part_000] *)

Module Part000.

Definition getWorkspaceFolder (h : Host) : Outcome string :=
  let activeEditorUri :=
    match activeTextEditor h with
    | Some uri => Some uri
    | None => activeNotebookEditor h
    end in
  match
    match activeEditorUri with
    | Some uri => folderOf h uri
    | None => None
    end
  with
  | Some folder => Ok (fsPath folder)
  | None =>
      match workspaceFolders h with
      | Some folders =>
          match find (fun folder => existsSync h (pathJoin h (fsPath folder) ".jj")) folders with
          | Some folder => Ok (fsPath folder)
          | None =>
              match folders with
              | first :: _ => Ok (fsPath first)
              | [] => Throw (TypeError "Cannot read properties of undefined (reading 'uri')")
              end
          end
      | None => Ok (homedir (platform h))
      end
  end.

Definition pollFocus (h : Host) (focusAttempts : nat) : M unit :=
  let* s := get in
  if bool_decide (activeTerminal h = jjuiTerminal s) then ret tt
  else if focusAttempts <? 10 then
    emit (executeCommand "workbench.action.terminal.focus");;
    emit (setTimeout (PollFocus (S focusAttempts)) 100)
  else ret tt.

Definition createWindow (h : Host) : M unit :=
  reloadIfConfigChange h;;
  let* workspaceFolder := await (getWorkspaceFolder h) in
  let isWin := win32 (platform h) in
  let* s := get in
  let* t :=
    newTerminal "jjui" workspaceFolder
      (Some (if isWin
             then ("powershell.exe", ["-Command"; jjuiPath (globalConfig s) +:+ "; exit"])
             else ("/bin/bash", ["-c"; jjuiPath (globalConfig s) +:+ " && exit"]))) in
  setTerminal (Some t);;
  emit (show t false);;
  pollFocus h 0;;
  addCloseObserver.

Definition toggleJJUI (h : Host) : M unit :=
  let* s := get in
  match jjuiTerminal s with
  | Some _ =>
      if windowFocused h s then closeWindow h;; onHide
      else focusWindow;; onShown
  | None => createWindow h;; onShown
  end.

End Part000.

(** ** Events *)

(** The listener given to [onDidCloseTerminal], the same in both versions. *)
Definition closeListener (t : Terminal) : M unit :=
  let* s := get in
  if bool_decide (Some t = jjuiTerminal s) then setTerminal None;; onHide
  else ret tt.

(** The host calls every registered listener with the closed terminal. *)
Fixpoint notifyClose (observers : nat) (t : Terminal) : M unit :=
  match observers with
  | 0 => ret tt
  | S k => closeListener t;; notifyClose k t
  end.

Definition terminalClosed (t : Terminal) : M unit :=
  let* s := get in notifyClose (closeObservers s) t.

Definition JJUI_CONTEXT_KEY : string := "jjuiFocus".

Definition updateFocusContext (h : Host) : M unit :=
  let* s := get in emit (setContext JJUI_CONTEXT_KEY (windowFocused h s)).

(** A timer fires. *)
Definition fireTimer (h : Host) (callback : Timer) : M unit :=
  match callback with
  | FocusEditorGroup => emit (executeCommand "workbench.action.focusActiveEditorGroup")
  | Refocus => Extension.refocus
  | PollFocus n => Part000.pollFocus h n
  end.

(** [activate]: the state once [loadExtension] has run and the command is
    registered. *)
Definition activate (h : Host) : Ctrl :=
  (loadExtension h
     {| jjuiTerminal := None; globalConfig := loadConfig h; globalConfigJSON := "";
        closeObservers := 0; terminals := 0; trace := [] |}).2.

(** Results read off a run. *)
Definition outcome {A} (r : Outcome A * Ctrl) : Outcome A := r.1.
Definition after {A} (r : Outcome A * Ctrl) : Ctrl := r.2.

(** The requests a run added to the trace of the state it started in. *)
Definition issued (s : Ctrl) (s' : Ctrl) : list Effect :=
  drop (length (trace s)) (trace s').

(** ** The event loop

    The host delivers one event at a time; [handle] runs the callback
    registered for it.  A state is reachable when it arises from
    [activate] by handling events, under any hosts. *)

Inductive Event :=
  | Toggle                          (* the command jjui-vscode.toggle *)
  | TerminalClosed (t : Terminal)
  | TimerFired (callback : Timer)
  | ActiveEditorChanged
  | ActiveTerminalChanged.

Definition handle (toggle : Host → M unit) (h : Host) (e : Event) : M unit :=
  match e with
  | Toggle => toggle h
  | TerminalClosed t => terminalClosed t
  | TimerFired callback => fireTimer h callback
  | ActiveEditorChanged | ActiveTerminalChanged => updateFocusContext h
  end.

Inductive reachable (toggle : Host → M unit) : Ctrl → Prop :=
  | reachable_activate (h : Host) : reachable toggle (activate h)
  | reachable_event (h : Host) (e : Event) (s : Ctrl) :
      reachable toggle s → reachable toggle (after (handle toggle h e s)).

(** A stored handle has an observer: every session creation registers
    one, and none is removed. *)
Definition observed (s : Ctrl) : Prop :=
  jjuiTerminal s ≠ None → 1 ≤ closeObservers s.

(** ** Sample hosts *)

Definition posix : Platform :=
  {| homedir := "/home/u"; env := {[ "FOO" := "/opt" ]}; win32 := false |}.

Definition noSettings : Settings :=
  {| setting_jjuiPath := None; setting_autoMaximizeWindow := None;
     setting_panels := λ _, None |}.

(** Nothing configured, no [jjui] on the PATH, no editor and no workspace
    open. *)
Definition bareHost : Host :=
  {| platform := posix; settings := noSettings; exec := λ _, None;
     activeTextEditor := None; activeNotebookEditor := None;
     workspaceFolders := None; folderOf := λ _, None;
     pathJoin := λ a b, a +:+ "/" +:+ b; existsSync := λ _, false;
     activeTerminal := None; tabGroups := [] |}.

(** A workspace that is open and has no folder. *)
Definition emptyWorkspace : Host :=
  {| platform := posix; settings := noSettings; exec := λ _, None;
     activeTextEditor := None; activeNotebookEditor := None;
     workspaceFolders := Some []; folderOf := λ _, None;
     pathJoin := λ a b, a +:+ "/" +:+ b; existsSync := λ _, false;
     activeTerminal := None; tabGroups := [] |}.

(** [jjui] is installed; two workspace folders, of which the second holds
    a [.jj] directory; no editor open. *)
Definition repoHost : Host :=
  {| platform := posix; settings := noSettings;
     exec := λ command,
       if bool_decide (command = "which jjui")
       then Some ("/usr/bin/jjui" +:+ String "010" "") else None;
     activeTextEditor := None; activeNotebookEditor := None;
     workspaceFolders := Some [ {| fsPath := "/w/a" |}; {| fsPath := "/w/b" |} ];
     folderOf := λ _, None;
     pathJoin := λ a b, a +:+ "/" +:+ b;
     existsSync := λ path, bool_decide (path = "/w/b/.jj");
     activeTerminal := None; tabGroups := [ {| tabs := ["main.rs"] |} ] |}.

(** The session's terminal, number 0, is active and its tab is the only
    one open. *)
Definition lastTabHost : Host :=
  {| platform := posix; settings := noSettings;
     exec := λ command,
       if bool_decide (command = "which jjui")
       then Some ("/usr/bin/jjui" +:+ String "010" "") else None;
     activeTextEditor := None; activeNotebookEditor := None;
     workspaceFolders := Some [ {| fsPath := "/w/a" |}; {| fsPath := "/w/b" |} ];
     folderOf := λ _, None;
     pathJoin := λ a b, a +:+ "/" +:+ b;
     existsSync := λ path, bool_decide (path = "/w/b/.jj");
     activeTerminal := Some 0; tabGroups := [ {| tabs := ["jjui"] |} ] |}.

(** A text made of well-formed [%NAME%] tokens between stretches without
    [%], and the same text with every token replaced by the value of its
    variable. *)
Fixpoint percentTokens (ts : list (string * string)) (last : string) : string :=
  match ts with
  | [] => last
  | (lit, name) :: rest => lit +:+ "%" +:+ name +:+ "%" +:+ percentTokens rest last
  end.

Fixpoint percentValues (p : Platform) (ts : list (string * string)) (last : string)
    : string :=
  match ts with
  | [] => last
  | (lit, name) :: rest => lit +:+ envOr p name +:+ percentValues p rest last
  end.

Definition wellFormedToken (t : string * string) : Prop :=
  allChars notPercent t.1 = true ∧ t.2 ≠ "" ∧ allChars notPercent t.2 = true.

Definition notFoundMessage : string :=
  "jjui not found on PATH. Please install it or set jjuiPath.".

(** ** Definitions for the further properties *)

(** [[^$]] *)
Definition notDollar (c : ascii) : bool := negb (c =? "$")%char.

(** The inverse of [quoteChar] at the head of a text: the character a
    JSON escape stands for, and what follows it.  It serves to show that
    [stringify] tells configurations apart. *)
Definition unhex (c : ascii) : nat :=
  let n := nat_of_ascii c in if n <? 58 then n - 48 else n - 87.

Definition unquoteHead (s : string) : option (ascii * string) :=
  match s with
  | "" => None
  | String c r =>
      let n := nat_of_ascii c in
      if n =? 34 then None
      else if n =? 92 then
        match r with
        | "" => None
        | String d r' =>
            let m := nat_of_ascii d in
            if m =? 34 then Some (dquote, r')
            else if m =? 92 then Some (ascii_of_nat 92, r')
            else if m =? 98 then Some (ascii_of_nat 8, r')
            else if m =? 116 then Some (ascii_of_nat 9, r')
            else if m =? 110 then Some (ascii_of_nat 10, r')
            else if m =? 102 then Some (ascii_of_nat 12, r')
            else if m =? 114 then Some (ascii_of_nat 13, r')
            else
              match r' with
              | String _ (String _ (String x (String y r''))) =>
                  Some (ascii_of_nat (16 * unhex x + unhex y), r'')
              | _ => None
              end
        end
      else Some (c, r)
  end.

(** The chain of [pollFocus] calls of one session creation: the first
    call and, for as long as a call sets a timer, the call made when that
    timer fires.  [hs] gives the host's answers at the successive calls. *)
Fixpoint pollChain (hs : list Host) (focusAttempts : nat) (s : Ctrl) : Ctrl :=
  match hs with
  | [] => s
  | h :: rest =>
      let s' := after (Part000.pollFocus h focusAttempts s) in
      if bool_decide (setTimeout (PollFocus (S focusAttempts)) 100 ∈ issued s s')
      then pollChain rest (S focusAttempts) s'
      else s'
  end.

(** How often the request [e] occurs among the requests [l]. *)
Definition occurrences (e : Effect) (l : list Effect) : nat :=
  length (filter (λ x, x = e) l).
Arguments occurrences : simpl never.

Definition focusCommand : Effect := executeCommand "workbench.action.terminal.focus".

(** Reading a trace from its start with [n] terminals created so far:
    every terminal the host is asked to create is the next one, and every
    request to show, write to or dispose a terminal names one created
    before.  The result is the number of terminals created by the end;
    [None] when the trace breaks the rule. *)
Fixpoint created (n : nat) (l : list Effect) : option nat :=
  match l with
  | [] => Some n
  | e :: rest =>
      match e with
      | createTerminal t _ _ _ => if t =? n then created (S n) rest else None
      | sendText t _ | show t _ | dispose t => if t <? n then created n rest else None
      | _ => created n rest
      end
  end.

(** The cached configuration agrees with the configuration whose
    serialized form is cached, except possibly in the executable path,
    which [loadExtension] resolves after serializing. *)
Definition cachedOk (s : Ctrl) : Prop :=
  ∃ c, globalConfigJSON s = stringify c
       ∧ autoMaximizeWindow (globalConfig s) = autoMaximizeWindow c
       ∧ panels (globalConfig s) = panels c.

Definition consistent (s : Ctrl) : Prop :=
  closeObservers s = terminals s
  ∧ (∀ t, jjuiTerminal s = Some t → t < terminals s)
  ∧ created 0 (trace s) = Some (terminals s)
  ∧ cachedOk s
  ∧ occurrences onDidCloseTerminal (trace s) = closeObservers s.

(** The terminal a request is made on. *)
Definition target (e : Effect) : option Terminal :=
  match e with
  | sendText t _ | show t _ | dispose t => Some t
  | _ => None
  end.

(** The number of terminals the requests [l] ask the host to create. *)
Fixpoint creations (l : list Effect) : nat :=
  match l with
  | [] => 0
  | createTerminal _ _ _ _ :: rest => S (creations rest)
  | _ :: rest => creations rest
  end.

(** A session is created, its terminal is closed, and a second session
    is created. *)
Definition twoSessions : Ctrl :=
  after (handle Part000.toggleJJUI repoHost Toggle
    (after (handle Part000.toggleJJUI repoHost (TerminalClosed 0)
      (after (handle Part000.toggleJJUI repoHost Toggle (activate repoHost)))))).

(** Any character but the line feed. *)
Definition notLF (c : ascii) : bool := negb (c =? "010")%char.


(** * Properties *)

(** ** Strings *)

Lemma app_cons (c : ascii) (s t : string) : String c s +:+ t = String c (s +:+ t).
Proof. reflexivity. Qed.

Lemma app_empty_l (s : string) : "" +:+ s = s.
Proof. reflexivity. Qed.

Lemma app_empty_r (s : string) : s +:+ "" = s.
Proof. induction s as [|c s IH]; [reflexivity|]. by rewrite app_cons, IH. Qed.

Lemma app_assoc' (a b c : string) : (a +:+ b) +:+ c = a +:+ (b +:+ c).
Proof. induction a as [|x a IH]; [reflexivity|]. by rewrite !app_cons, IH. Qed.

Lemma length_app (a b : string) :
  String.length (a +:+ b) = String.length a + String.length b.
Proof. induction a as [|x a IH]; [reflexivity|]. rewrite app_cons. simpl. by rewrite IH. Qed.

Lemma slice_app_length (a b : string) : slice (String.length a) (a +:+ b) = b.
Proof. induction a as [|x a IH]; [by destruct b|]. rewrite app_cons. simpl. exact IH. Qed.

Lemma span_app p (a b : string) :
  allChars p a = true → stopsAt p b = true → span p (a +:+ b) = (a, b).
Proof.
  intros Ha Hb. induction a as [|c a IH].
  - rewrite app_empty_l. destruct b as [|d b]; [reflexivity|].
    simpl in *. by destruct (p d).
  - simpl in Ha. apply andb_prop in Ha as [Hc Ha].
    rewrite app_cons. simpl. rewrite Hc, (IH Ha). reflexivity.
Qed.

Lemma span_stops p (s : string) :
  allChars p (span p s).1 = true ∧ stopsAt p (span p s).2 = true
  ∧ s = (span p s).1 +:+ (span p s).2.
Proof.
  induction s as [|c s IH]; [done|].
  simpl. destruct (p c) eqn:Hc.
  - destruct (span p s) as [a b]. simpl in *. rewrite Hc.
    destruct IH as (? & ? & ->). by rewrite app_cons.
  - simpl. by rewrite Hc.
Qed.


(** ** Global replacement *)

Section Replace.
Variable re : string → option (string * nat).
Variable fn : string → string.

Lemma replaceFrom_slice (s : string) (k : nat) :
  replaceFrom re fn k s = replaceAll re fn (slice k s).
Proof.
  revert k. induction s as [|c r IH]; intros [|k]; try reflexivity.
  simpl. apply IH.
Qed.

Lemma replaceAll_copy (c : ascii) (r : string) :
  re (String c r) = None →
  replaceAll re fn (String c r) = String c (replaceAll re fn r).
Proof. intros H. unfold replaceAll. simpl. by rewrite H. Qed.

Lemma replaceAll_match (c : ascii) (r cap : string) (k : nat) :
  re (String c r) = Some (cap, S k) →
  replaceAll re fn (String c r) = fn cap +:+ replaceAll re fn (slice k r).
Proof.
  intros H. unfold replaceAll at 1. simpl. rewrite H.
  by rewrite replaceFrom_slice.
Qed.

(** A text after which no match of the scanned part can reach is
    scanned on its own. *)
Lemma replaceFrom_app (s : string) :
  (∀ q, q ≠ "" → re (q +:+ s) = re q) →
  (∀ q cap n, re q = Some (cap, n) → n ≤ String.length q) →
  ∀ pre k,
    replaceFrom re fn k (pre +:+ s)
    = replaceFrom re fn k pre +:+ replaceFrom re fn (k - String.length pre) s.
Proof.
  intros Hloc Hlen. induction pre as [|c r IH]; intros k.
  - rewrite app_empty_l. simpl. by rewrite Nat.sub_0_r.
  - rewrite app_cons. destruct k as [|k]; simpl.
    + rewrite <- app_cons, Hloc by done.
      destruct (re (String c r)) as [[cap [|j]]|] eqn:Hre.
      * by rewrite app_cons, IH.
      * apply Hlen in Hre. simpl in Hre.
        rewrite IH, app_assoc'. repeat f_equal. lia.
      * by rewrite app_cons, IH.
    + apply IH.
Qed.
End Replace.

(** ** expandPath *)

Lemma matchPercent_token (name post : string) :
  name ≠ "" → allChars notPercent name = true →
  matchPercent ("%" +:+ name +:+ "%" +:+ post)
  = Some (name, S (S (String.length name))).
Proof.
  intros Hne Hname. change ("%" +:+ name +:+ "%" +:+ post)
    with (String "%" (name +:+ String "%" post)).
  unfold matchPercent. simpl Ascii.eqb. cbv iota.
  rewrite (span_app notPercent name (String "%" post) Hname eq_refl).
  destruct name as [|c name]; [done|]. simpl.
  by rewrite Nat.add_comm.
Qed.

Lemma expandPercent_copy (p : Platform) (pre s : string) :
  allChars notPercent pre = true →
  expandPercent p (pre +:+ s) = pre +:+ expandPercent p s.
Proof.
  intros Hpre. induction pre as [|c r IH]; [reflexivity|].
  simpl in Hpre. apply andb_prop in Hpre as [Hc Hr].
  rewrite !app_cons. unfold expandPercent in *. rewrite replaceAll_copy.
  - by rewrite IH.
  - unfold matchPercent. unfold notPercent in Hc.
    by destruct (Ascii.eqb c "%").
Qed.

Lemma expandPercent_token (p : Platform) (pre name post : string) :
  allChars notPercent pre = true →
  name ≠ "" → allChars notPercent name = true →
  expandPercent p (pre +:+ "%" +:+ name +:+ "%" +:+ post)
  = pre +:+ envOr p name +:+ expandPercent p post.
Proof.
  intros Hpre Hne Hname. rewrite expandPercent_copy by done. f_equal.
  unfold expandPercent.
  pose proof (matchPercent_token name post Hne Hname) as Hm.
  change ("%" +:+ name +:+ "%" +:+ post)
    with (String "%" (name +:+ String "%" post)) in *.
  rewrite (replaceAll_match _ _ _ _ _ _ Hm). f_equal. f_equal.
  change (name +:+ String "%" post) with (name +:+ ("%" +:+ post)).
  rewrite <- app_assoc'.
  replace (S (String.length name)) with (String.length (name +:+ "%")).
  - apply slice_app_length.
  - rewrite length_app. simpl. lia.
Qed.

Lemma matchDollar_token (name post : string) :
  name ≠ "" → allChars isWordChar name = true → stopsAt isWordChar post = true →
  matchDollar ("$" +:+ name +:+ post) = Some (name, S (String.length name)).
Proof.
  intros Hne Hname Hpost.
  change ("$" +:+ name +:+ post) with (String "$" (name +:+ post)).
  unfold matchDollar. simpl Ascii.eqb. cbv iota.
  rewrite (span_app isWordChar name post Hname Hpost).
  destruct name as [|c name]; [done|]. simpl. by rewrite Nat.add_comm.
Qed.

Lemma stopsAt_app p (b s : string) :
  stopsAt p b = true → stopsAt p s = true → stopsAt p (b +:+ s) = true.
Proof. destruct b; [by rewrite app_empty_l | by rewrite app_cons]. Qed.

Lemma matchDollar_local (s q : string) :
  stopsAt isWordChar s = true → q ≠ "" → matchDollar (q +:+ s) = matchDollar q.
Proof.
  intros Hs Hq. destruct q as [|c q]; [done|]. rewrite app_cons.
  unfold matchDollar. destruct (Ascii.eqb c "$"); [|done].
  destruct (span_stops isWordChar q) as (Ha & Hb & Hq').
  destruct (span isWordChar q) as [a b] eqn:Hsp. simpl in *.
  rewrite Hq', app_assoc'.
  by rewrite (span_app isWordChar a (b +:+ s) Ha (stopsAt_app _ _ _ Hb Hs)).
Qed.

Lemma matchDollar_length (q cap : string) (n : nat) :
  matchDollar q = Some (cap, n) → n ≤ String.length q.
Proof.
  destruct q as [|c q]; [done|]. unfold matchDollar.
  destruct (Ascii.eqb c "$"); [|done].
  destruct (span_stops isWordChar q) as (_ & _ & Hq).
  destruct (span isWordChar q) as [a b]. simpl in Hq.
  destruct a as [|d a]; [done|]. intros [= <- <-].
  subst q. cbn [String.length]. rewrite length_app. simpl. lia.
Qed.

Lemma expandDollar_app (p : Platform) (pre s : string) :
  stopsAt isWordChar s = true →
  expandDollar p (pre +:+ s) = expandDollar p pre +:+ expandDollar p s.
Proof.
  intros Hs. unfold expandDollar, replaceAll.
  rewrite (replaceFrom_app matchDollar (envOr p) s).
  - reflexivity.
  - intros q Hq. by apply matchDollar_local.
  - apply matchDollar_length.
Qed.

Lemma expandDollar_token (p : Platform) (pre name post : string) :
  name ≠ "" → allChars isWordChar name = true → stopsAt isWordChar post = true →
  expandDollar p (pre +:+ "$" +:+ name +:+ post)
  = expandDollar p pre +:+ envOr p name +:+ expandDollar p post.
Proof.
  intros Hne Hname Hpost. rewrite expandDollar_app by done. f_equal.
  unfold expandDollar.
  pose proof (matchDollar_token name post Hne Hname Hpost) as Hm.
  change ("$" +:+ name +:+ post) with (String "$" (name +:+ post)) in *.
  rewrite (replaceAll_match _ _ _ _ _ _ Hm). f_equal. f_equal.
  apply slice_app_length.
Qed.

Lemma expandDollar_copy (p : Platform) (s : string) :
  allChars (λ c, negb (Ascii.eqb c "$")) s = true → expandDollar p s = s.
Proof.
  intros Hs. induction s as [|c r IH]; [reflexivity|].
  simpl in Hs. apply andb_prop in Hs as [Hc Hr].
  unfold expandDollar in *. rewrite replaceAll_copy; [by rewrite IH|].
  unfold matchDollar. by destruct (Ascii.eqb c "$").
Qed.

Lemma wordChar_notPercent (c : ascii) : isWordChar c = true → notPercent c = true.
Proof. destruct c as [[] [] [] [] [] [] [] []]; by vm_compute. Qed.

Lemma allChars_impl (p q : ascii → bool) (s : string) :
  (∀ c, p c = true → q c = true) → allChars p s = true → allChars q s = true.
Proof.
  intros Hpq. induction s as [|c r IH]; [done|]. simpl.
  intros [Hc Hr]%andb_prop. by rewrite (Hpq c Hc), (IH Hr).
Qed.

Lemma allChars_app (p : ascii → bool) (a b : string) :
  allChars p (a +:+ b) = allChars p a && allChars p b.
Proof.
  induction a as [|c a IH]; [reflexivity|]. rewrite app_cons. simpl.
  by rewrite IH, andb_assoc.
Qed.

Lemma expandPercent_id (p : Platform) (s : string) :
  allChars notPercent s = true → expandPercent p s = s.
Proof.
  intros Hs. rewrite <- (app_empty_r s) at 1.
  rewrite expandPercent_copy by done. apply app_empty_r.
Qed.

(** C8. The code falls short of the claim on one kind of input: a
    [$]-variable that is unset in the environment is not replaced by the
    empty string when its name is that of a property [process.env]
    inherits.  With no variable [constructor] in the environment,
    [expandPath "$constructor/bin"] is [function () { [native code] }/bin]
    and not [/bin]. *)
Theorem expandPath_unset_constructor (p : Platform) :
  env p !! "constructor" = None →
  expandPath p "$constructor/bin" = "function () { [native code] }/bin"
  ∧ expandPath p "$constructor/bin" ≠ "/bin".
Proof.
  intros Hunset.
  assert (expandPath p "$constructor/bin" = "function () { [native code] }/bin") as ->.
  { unfold expandPath.
    change (expandTilde p "$constructor/bin") with ("" +:+ "$" +:+ "constructor" +:+ "/bin").
    rewrite expandPercent_id by reflexivity.
    rewrite expandDollar_token by done.
    unfold envOr. rewrite Hunset. reflexivity. }
  split; [reflexivity | discriminate].
Qed.

Lemma expandPath_unset_constructor_witness :
  let p := {| homedir := "/home/u"; env := {[ "FOO" := "/opt" ]}; win32 := false |} in
  env p !! "constructor" = None
  ∧ expandPath p "$constructor/bin" = "function () { [native code] }/bin"
  ∧ expandPath p "$constructor/bin" ≠ "/bin".
Proof.
  intros p. split; [vm_compute; reflexivity|].
  apply (expandPath_unset_constructor p). vm_compute. reflexivity.
Defined.

Lemma expandPercent_tokens (p : Platform) (ts : list (string * string)) (last : string) :
  Forall wellFormedToken ts → allChars notPercent last = true →
  expandPercent p (percentTokens ts last) = percentValues p ts last.
Proof.
  intros Hts Hlast. induction Hts as [|[lit name] rest (Hlit & Hne & Hname) _ IH].
  - by apply expandPercent_id.
  - simpl in *. by rewrite expandPercent_token, IH.
Qed.

(** C10. The code falls short of the claim on one kind of input: a
    [%NAME%] token whose variable is unset is not replaced by the empty
    string when [NAME] is the name of a property [process.env] inherits.
    With no variable [__proto__] in the environment,
    [expandPath "%__proto__%\jjui"] is [[object Object]\jjui] and not
    [\jjui]. *)
Theorem expandPath_unset_proto (p : Platform) :
  env p !! "__proto__" = None →
  expandPath p "%__proto__%\jjui" = "[object Object]\jjui"
  ∧ expandPath p "%__proto__%\jjui" ≠ "\jjui".
Proof.
  intros Hunset.
  assert (expandPath p "%__proto__%\jjui" = "[object Object]\jjui") as ->.
  { unfold expandPath.
    change (expandTilde p "%__proto__%\jjui")
      with ("" +:+ "%" +:+ "__proto__" +:+ "%" +:+ "\jjui").
    rewrite expandPercent_token by done.
    rewrite (expandPercent_id p "\jjui") by reflexivity.
    unfold envOr. rewrite Hunset.
    apply expandDollar_copy. reflexivity. }
  split; [reflexivity | discriminate].
Qed.

Lemma expandPath_unset_proto_witness :
  let p := {| homedir := "C:\Users\u"; env := {[ "APPDATA" := "C:\A" ]};
              win32 := true |} in
  env p !! "__proto__" = None
  ∧ expandPath p "%__proto__%\jjui" = "[object Object]\jjui"
  ∧ expandPath p "%__proto__%\jjui" ≠ "\jjui".
Proof.
  intros p. split; [vm_compute; reflexivity|].
  apply (expandPath_unset_proto p). vm_compute. reflexivity.
Defined.

(** ** Runs and their requests *)

Lemma issued_app (s s' : Ctrl) (es : list Effect) :
  trace s' = trace s ++ es → issued s s' = es.
Proof. unfold issued. intros ->. apply drop_app_length. Qed.

Lemma issued_app3 (s s' : Ctrl) (a b c : list Effect) :
  trace s' = ((trace s ++ a) ++ b) ++ c → issued s s' = (a ++ b) ++ c.
Proof. intros H. apply issued_app. by rewrite H, <- !app_assoc. Qed.

Lemma emits_run (es : list Effect) (s : Ctrl) :
  outcome (emits es s) = Ok tt ∧ issued s (after (emits es s)) = es
  ∧ jjuiTerminal (after (emits es s)) = jjuiTerminal s
  ∧ globalConfig (after (emits es s)) = globalConfig s.
Proof. repeat split. by apply issued_app. Qed.

Ltac config_cases c :=
  destruct c as [pth [] [[] [] []]]; cbn.

Ltac list_facts :=
  repeat match goal with
  | |- _ ∧ _ => split
  | |- _ ↔ _ => split
  | |- _ → _ => intro
  | |- NoDup _ => compute_done
  | H : _ ∈ _ |- _ => apply (bool_decide_pack _) in H; vm_compute in H; destruct H
  | |- _ ∈ _ => compute_done
  | |- _ ∉ _ => compute_done
  | H : _ ∧ _ |- _ => destruct H
  | H : _ ∨ _ |- _ => destruct H
  | |- _ => discriminate
  | |- _ = _ => reflexivity
  | |- _ ∨ _ => (left; reflexivity) || (right; reflexivity)
  | |- ∃ _, _ => eexists
  end.

(** ** UI logic (panels) *)

Lemma onShownCommands_spec (c : JJUIConfig) :
  let cmds := onShownCommands c in
  (executeCommand "workbench.action.maximizeEditorHideSidebar" ∈ cmds
     ↔ autoMaximizeWindow c = true)
  ∧ (executeCommand "workbench.action.toggleSidebarVisibility" ∈ cmds
     ↔ autoMaximizeWindow c = true ∧ sidebar (panels c) = keep)
  ∧ (autoMaximizeWindow c = true → sidebar (panels c) = keep →
     ∃ rest, cmds = executeCommand "workbench.action.maximizeEditorHideSidebar"
                    :: executeCommand "workbench.action.toggleSidebarVisibility" :: rest)
  ∧ (executeCommand "workbench.action.closeSidebar" ∈ cmds
     ↔ autoMaximizeWindow c = false
       ∧ (sidebar (panels c) = hide ∨ sidebar (panels c) = hideRestore))
  ∧ (executeCommand "workbench.action.closeAuxiliaryBar" ∈ cmds
     ↔ autoMaximizeWindow c = false
       ∧ (secondarySidebar (panels c) = hide ∨ secondarySidebar (panels c) = hideRestore))
  ∧ (executeCommand "workbench.action.closePanel" ∈ cmds
     ↔ panel (panels c) = hide ∨ panel (panels c) = hideRestore)
  ∧ NoDup cmds.
Proof.
  config_cases c; list_facts.
Qed.

Lemma onShown_run (s : Ctrl) :
  onShown s = emits (onShownCommands (globalConfig s)) s.
Proof. reflexivity. Qed.

Lemma onHide_run (s : Ctrl) :
  onHide s = emits (onHideCommands (globalConfig s)) s.
Proof. reflexivity. Qed.

(** C5. The on-shown adjustment is a function of the configuration
    snapshot: with auto-maximize it issues the maximize-editor command
    and then the sidebar toggle exactly when the sidebar behavior is
    [keep]; without auto-maximize it issues close-sidebar exactly when
    the sidebar behavior is [hide] or [hideRestore] and
    close-secondary-sidebar exactly when the secondary sidebar's is;
    in both cases it issues close-panel exactly when the panel behavior
    is [hide] or [hideRestore].  No command is issued twice. *)
Theorem onShown_adjustment (s : Ctrl) :
  let c := globalConfig s in
  let cmds := issued s (after (onShown s)) in
  outcome (onShown s) = Ok tt
  ∧ cmds = onShownCommands c
  ∧ (executeCommand "workbench.action.maximizeEditorHideSidebar" ∈ cmds
     ↔ autoMaximizeWindow c = true)
  ∧ (executeCommand "workbench.action.toggleSidebarVisibility" ∈ cmds
     ↔ autoMaximizeWindow c = true ∧ sidebar (panels c) = keep)
  ∧ (autoMaximizeWindow c = true → sidebar (panels c) = keep →
     ∃ rest, cmds = executeCommand "workbench.action.maximizeEditorHideSidebar"
                    :: executeCommand "workbench.action.toggleSidebarVisibility" :: rest)
  ∧ (executeCommand "workbench.action.closeSidebar" ∈ cmds
     ↔ autoMaximizeWindow c = false
       ∧ (sidebar (panels c) = hide ∨ sidebar (panels c) = hideRestore))
  ∧ (executeCommand "workbench.action.closeAuxiliaryBar" ∈ cmds
     ↔ autoMaximizeWindow c = false
       ∧ (secondarySidebar (panels c) = hide ∨ secondarySidebar (panels c) = hideRestore))
  ∧ (executeCommand "workbench.action.closePanel" ∈ cmds
     ↔ panel (panels c) = hide ∨ panel (panels c) = hideRestore)
  ∧ NoDup cmds.
Proof.
  intros c cmds. subst c cmds. rewrite onShown_run.
  destruct (emits_run (onShownCommands (globalConfig s)) s) as (Hok & -> & _).
  split; [exact Hok|]. split; [reflexivity|]. apply onShownCommands_spec.
Qed.

Lemma onShown_adjustment_witness :
  let s := {| jjuiTerminal := Some 0;
              globalConfig := {| jjuiPath := "/usr/bin/jjui"; autoMaximizeWindow := true;
                                 panels := {| sidebar := keep; panel := hideRestore;
                                              secondarySidebar := hide |} |};
              globalConfigJSON := ""; closeObservers := 1; terminals := 1;
              trace := [show 0 false] |} in
  issued s (after (onShown s))
  = [executeCommand "workbench.action.maximizeEditorHideSidebar";
     executeCommand "workbench.action.toggleSidebarVisibility";
     executeCommand "workbench.action.closePanel"].
Proof.
  intros s.
  destruct (onShown_adjustment s) as (_ & _ & _ & _ & Horder & _).
  destruct (Horder eq_refl eq_refl) as [rest Hrest]. reflexivity.
Defined.

Lemma onHideCommands_spec (c : JJUIConfig) :
  let cmds := onHideCommands c in
  (executeCommand "workbench.action.toggleAuxiliaryBar" ∈ cmds
     ↔ secondarySidebar (panels c) = hideRestore)
  ∧ (executeCommand "workbench.action.togglePanel" ∈ cmds
     ↔ panel (panels c) = hideRestore)
  ∧ (executeCommand "workbench.action.toggleSidebarVisibility" ∉ cmds)
  ∧ (executeCommand "workbench.action.evenEditorWidths" ∈ cmds
     ↔ autoMaximizeWindow c = true)
  ∧ last cmds = Some (setTimeout FocusEditorGroup 200)
  ∧ (executeCommand "workbench.action.focusActiveEditorGroup" ∉ cmds)
  ∧ NoDup cmds.
Proof.
  config_cases c; list_facts.
Qed.

(** The sidebar behavior has no part in [onHide]. *)
Lemma onHideCommands_sidebar (c : JJUIConfig) (b : PanelBehavior) :
  onHideCommands
    {| jjuiPath := jjuiPath c; autoMaximizeWindow := autoMaximizeWindow c;
       panels := {| sidebar := b; panel := panel (panels c);
                    secondarySidebar := secondarySidebar (panels c) |} |}
  = onHideCommands c.
Proof. reflexivity. Qed.

(** C6. The on-hidden adjustment is a function of the configuration
    snapshot: it issues the toggle of the secondary sidebar exactly when
    its behavior is [hideRestore], the toggle of the panel exactly when
    its behavior is [hideRestore], never the toggle of the sidebar, the
    even-editor-widths command exactly when auto-maximize is enabled, and
    last it sets a timer of 200 ms whose callback requests focus of the
    active editor group; the focus request is not issued before. *)
Theorem onHide_adjustment (h : Host) (s : Ctrl) :
  let c := globalConfig s in
  let cmds := issued s (after (onHide s)) in
  outcome (onHide s) = Ok tt
  ∧ cmds = onHideCommands c
  ∧ (executeCommand "workbench.action.toggleAuxiliaryBar" ∈ cmds
     ↔ secondarySidebar (panels c) = hideRestore)
  ∧ (executeCommand "workbench.action.togglePanel" ∈ cmds
     ↔ panel (panels c) = hideRestore)
  ∧ (executeCommand "workbench.action.toggleSidebarVisibility" ∉ cmds)
  ∧ (executeCommand "workbench.action.evenEditorWidths" ∈ cmds
     ↔ autoMaximizeWindow c = true)
  ∧ last cmds = Some (setTimeout FocusEditorGroup 200)
  ∧ (executeCommand "workbench.action.focusActiveEditorGroup" ∉ cmds)
  ∧ NoDup cmds
  ∧ issued (after (onHide s)) (after (fireTimer h FocusEditorGroup (after (onHide s))))
    = [executeCommand "workbench.action.focusActiveEditorGroup"].
Proof.
  intros c cmds. subst c cmds. rewrite onHide_run.
  destruct (emits_run (onHideCommands (globalConfig s)) s) as (Hok & -> & _).
  split; [exact Hok|]. split; [reflexivity|].
  pose proof (onHideCommands_spec (globalConfig s)) as (? & ? & ? & ? & ? & ? & ?).
  repeat (split; [assumption|]). by apply issued_app.
Qed.

Lemma onHide_adjustment_witness :
  let h := {| platform := {| homedir := "/home/u"; env := ∅; win32 := false |};
              settings := {| setting_jjuiPath := None; setting_autoMaximizeWindow := None;
                             setting_panels := λ _, None |};
              exec := λ _, None; activeTextEditor := None; activeNotebookEditor := None;
              workspaceFolders := None; folderOf := λ _, None;
              pathJoin := λ a b, a +:+ "/" +:+ b; existsSync := λ _, false;
              activeTerminal := Some 0; tabGroups := [] |} in
  let s := {| jjuiTerminal := Some 0;
              globalConfig := {| jjuiPath := "/usr/bin/jjui"; autoMaximizeWindow := true;
                                 panels := {| sidebar := hideRestore; panel := hideRestore;
                                              secondarySidebar := hide |} |};
              globalConfigJSON := ""; closeObservers := 1; terminals := 1;
              trace := [show 0 false] |} in
  issued s (after (onHide s))
  = [executeCommand "workbench.action.togglePanel";
     executeCommand "workbench.action.evenEditorWidths";
     setTimeout FocusEditorGroup 200].
Proof.
  intros h s.
  destruct (onHide_adjustment h s) as (_ & Hcmds & _ & Hpanel & _).
  destruct Hpanel as [_ Hpanel]. specialize (Hpanel eq_refl).
  rewrite Hcmds. reflexivity.
Defined.

(** ** Window management *)

Ltac run :=
  unfold outcome, after, ret, throw, get, emit, emits, setTerminal, setConfig, setPath,
    newTerminal, addCloseObserver, assert, await;
  cbn.

Lemma bind_get {A} (k : Ctrl → M A) (s : Ctrl) : bind get k s = k s s.
Proof. reflexivity. Qed.

Lemma closeWindow_run (h : Host) (s : Ctrl) (t : Terminal) :
  jjuiTerminal s = Some t →
  closeWindow h s
  = emit (if length (flat_map tabs (tabGroups h)) =? 1 then dispose t
          else executeCommand "workbench.action.openPreviousRecentlyUsedEditorInGroup") s.
Proof.
  intros Ht. unfold closeWindow, bind, get. rewrite Ht.
  by destruct (length (flat_map tabs (tabGroups h)) =? 1).
Qed.

Lemma windowFocused_true (h : Host) (s : Ctrl) :
  windowFocused h s = true ↔
  activeTextEditor h = None ∧ activeTerminal h = jjuiTerminal s.
Proof.
  unfold windowFocused. rewrite andb_true_iff, !bool_decide_eq_true. done.
Qed.

Lemma toggle_focused (h : Host) (s : Ctrl) (t : Terminal) :
  jjuiTerminal s = Some t → windowFocused h s = true →
  Extension.toggleJJUI h s = (closeWindow h;; onHide) s
  ∧ Part000.toggleJJUI h s = (closeWindow h;; onHide) s.
Proof.
  intros Ht Hf. unfold Extension.toggleJJUI, Part000.toggleJJUI.
  rewrite !bind_get. by rewrite Ht, Hf.
Qed.

Lemma toggle_unfocused (h : Host) (s : Ctrl) (t : Terminal) :
  jjuiTerminal s = Some t → windowFocused h s = false →
  Extension.toggleJJUI h s = (focusWindow;; onShown) s
  ∧ Part000.toggleJJUI h s = (focusWindow;; onShown) s.
Proof.
  intros Ht Hf. unfold Extension.toggleJJUI, Part000.toggleJJUI.
  rewrite !bind_get. by rewrite Ht, Hf.
Qed.

Lemma toggle_absent (h : Host) (s : Ctrl) :
  jjuiTerminal s = None →
  Extension.toggleJJUI h s = (Extension.createWindow h;; onShown) s
  ∧ Part000.toggleJJUI h s = (Part000.createWindow h;; onShown) s.
Proof.
  intros Ht. unfold Extension.toggleJJUI, Part000.toggleJJUI.
  rewrite !bind_get. by rewrite Ht.
Qed.

(** C4. Hiding a session: with exactly one tab open over all tab groups
    the session's terminal is disposed; otherwise the host is asked to
    open the previously used editor of the group.  In both cases the
    stored handle is left as it is.  A toggle of a focused session does
    this first and the on-hidden adjustment after it. *)
Theorem closeWindow_hide (h : Host) (s : Ctrl) (t : Terminal) :
  jjuiTerminal s = Some t →
  let r := closeWindow h s in
  let openTabs := length (flat_map tabs (tabGroups h)) in
  outcome r = Ok tt
  ∧ jjuiTerminal (after r) = Some t
  ∧ (openTabs = 1 → issued s (after r) = [dispose t])
  ∧ (openTabs ≠ 1 →
     issued s (after r)
     = [executeCommand "workbench.action.openPreviousRecentlyUsedEditorInGroup"])
  ∧ (windowFocused h s = true →
     ∀ toggle, toggle ∈ [Extension.toggleJJUI; Part000.toggleJJUI] →
       outcome (toggle h s) = Ok tt
       ∧ jjuiTerminal (after (toggle h s)) = Some t
       ∧ issued s (after (toggle h s))
         = issued s (after r) ++ onHideCommands (globalConfig s)).
Proof.
  intros Ht r openTabs. subst r openTabs. rewrite (closeWindow_run h s t Ht).
  split; [reflexivity|]. split; [exact Ht|]. split; [|split].
  - intros ->. by apply issued_app.
  - intros Hn. apply Nat.eqb_neq in Hn. rewrite Hn. by apply issued_app.
  - intros Hf toggle Htoggle.
    destruct (toggle_focused h s t Ht Hf) as [He Hp].
    assert (toggle h s = (closeWindow h;; onHide) s) as ->.
    { apply elem_of_cons in Htoggle as [->| Htoggle]; [done|].
      apply elem_of_cons in Htoggle as [->| Htoggle]; [done|].
      by apply elem_of_nil in Htoggle. }
    unfold bind. rewrite (closeWindow_run h s t Ht).
    set (e := if _ =? 1 then _ else _).
    split; [reflexivity|]. split; [exact Ht|].
    rewrite (issued_app s (after (emit e s)) [e] eq_refl).
    apply issued_app. cbn. by rewrite <- app_assoc.
Qed.

Lemma closeWindow_hide_witness :
  let h := {| platform := {| homedir := "/home/u"; env := ∅; win32 := false |};
              settings := {| setting_jjuiPath := None; setting_autoMaximizeWindow := None;
                             setting_panels := λ _, None |};
              exec := λ _, None; activeTextEditor := None; activeNotebookEditor := None;
              workspaceFolders := None; folderOf := λ _, None;
              pathJoin := λ a b, a +:+ "/" +:+ b; existsSync := λ _, false;
              activeTerminal := Some 3;
              tabGroups := [ {| tabs := [] |}; {| tabs := ["jjui"] |} ] |} in
  let s := {| jjuiTerminal := Some 3;
              globalConfig := {| jjuiPath := "/usr/bin/jjui"; autoMaximizeWindow := false;
                                 panels := {| sidebar := keep; panel := keep;
                                              secondarySidebar := hide |} |};
              globalConfigJSON := ""; closeObservers := 4; terminals := 4;
              trace := [] |} in
  issued s (after (closeWindow h s)) = [dispose 3]
  ∧ issued s (after (Part000.toggleJJUI h s)) = [dispose 3; setTimeout FocusEditorGroup 200].
Proof.
  intros h s.
  destruct (closeWindow_hide h s 3 eq_refl) as (_ & _ & Hone & _ & Htoggle).
  split; [exact (Hone eq_refl)|].
  destruct (Htoggle eq_refl Part000.toggleJJUI) as (_ & _ & ->).
  - apply elem_of_cons; right. apply elem_of_cons; by left.
  - reflexivity.
Defined.

Lemma focusWindow_absent (s : Ctrl) :
  jjuiTerminal s = None →
  focusWindow s = (Throw (AssertionError "Terminal undefined!"), s).
Proof. intros Ht. unfold focusWindow, bind, get. by rewrite Ht. Qed.

Lemma focusWindow_present (s : Ctrl) (t : Terminal) :
  jjuiTerminal s = Some t → focusWindow s = emit (show t false) s.
Proof. intros Ht. unfold focusWindow, bind, get. by rewrite Ht. Qed.

(** ** Loading the configuration *)

Lemma loadExtension_frame (h : Host) (s : Ctrl) :
  ∃ pth msgs,
    loadExtension h s
    = (Ok tt,
       {| jjuiTerminal := jjuiTerminal s;
          globalConfig := {| jjuiPath := pth;
                             autoMaximizeWindow := autoMaximizeWindow (loadConfig h);
                             panels := panels (loadConfig h) |};
          globalConfigJSON := stringify (loadConfig h);
          closeObservers := closeObservers s; terminals := terminals s;
          trace := trace s ++ msgs |})
    ∧ (msgs = []
       ∨ msgs = [showErrorMessage notFoundMessage] ∧ pth = ""
         ∧ jjuiPath (loadConfig h) = ""
         ∧ findExecutableOnPath h "jjui" = Throw (PlainError "jjui not found")).
Proof.
  unfold loadExtension, bind, setConfig, get, setPath.
  set (cfg := loadConfig h). clearbody cfg. destruct cfg as [[|c pth] am pn]; cbn.
  - unfold findExecutableOnPath.
    destruct (exec h _) as [stdout|]; cbn.
    + eexists _, []. rewrite app_nil_r. split; [reflexivity | by left].
    + eexists _, _. split; [reflexivity|]. by right.
  - eexists _, []. rewrite app_nil_r. split; [reflexivity | by left].
Qed.

Lemma reload_run (h : Host) (s : Ctrl) :
  reloadIfConfigChange h s
  = if bool_decide (stringify (loadConfig h) ≠ globalConfigJSON s)
    then loadExtension h s else (Ok tt, s).
Proof. unfold reloadIfConfigChange. rewrite bind_get. by case_bool_decide. Qed.

Lemma reload_frame (h : Host) (s : Ctrl) :
  ∃ cfg json msgs,
    reloadIfConfigChange h s
    = (Ok tt,
       {| jjuiTerminal := jjuiTerminal s; globalConfig := cfg; globalConfigJSON := json;
          closeObservers := closeObservers s; terminals := terminals s;
          trace := trace s ++ msgs |})
    ∧ (msgs = [] ∨ msgs = [showErrorMessage notFoundMessage] ∧ jjuiPath cfg = "").
Proof.
  rewrite reload_run. case_bool_decide.
  - destruct (loadExtension_frame h s) as (pth & msgs & -> & Hmsgs).
    eexists _, _, msgs. split; [reflexivity|].
    destruct Hmsgs as [->|(-> & -> & _)]; [by left | by right].
  - exists (globalConfig s), (globalConfigJSON s), [].
    rewrite app_nil_r. split; [by destruct s | by left].
Qed.

(** With the path unset and the lookup failing, a reload leaves the path
    empty. *)
Lemma reload_not_found (h : Host) (s : Ctrl) :
  jjuiPath (loadConfig h) = "" →
  exec h (if win32 (platform h) then "where jjui" else "which jjui") = None →
  jjuiPath (globalConfig s) = "" →
  ∃ cfg json msgs,
    reloadIfConfigChange h s
    = (Ok tt,
       {| jjuiTerminal := jjuiTerminal s; globalConfig := cfg; globalConfigJSON := json;
          closeObservers := closeObservers s; terminals := terminals s;
          trace := trace s ++ msgs |})
    ∧ jjuiPath cfg = ""
    ∧ (msgs = [] ∨ msgs = [showErrorMessage notFoundMessage]).
Proof.
  intros Hcfg Hexec Hs. rewrite reload_run. case_bool_decide.
  - unfold loadExtension, bind, setConfig, get, setPath.
    set (cfg := loadConfig h) in *. clearbody cfg. destruct cfg as [pth am pn].
    cbn in Hcfg. subst pth. cbn. unfold findExecutableOnPath.
    replace (exec h _) with (@None string)
      by (rewrite <- Hexec; by destruct (win32 (platform h))).
    cbn. eexists _, _, _. split; [reflexivity|]. split; [reflexivity | by right].
  - exists (globalConfig s), (globalConfigJSON s), [].
    rewrite app_nil_r. split; [by destruct s | by split; [|left]].
Qed.

Lemma getWorkspaceFolder_outcome (h : Host) :
  (∃ cwd, Part000.getWorkspaceFolder h = Ok cwd)
  ∨ Part000.getWorkspaceFolder h
    = Throw (TypeError "Cannot read properties of undefined (reading 'uri')").
Proof.
  unfold Part000.getWorkspaceFolder.
  repeat (case_match; eauto).
Qed.

(** ** Creating the session *)

Lemma createWindow_extension (h : Host) (s s1 : Ctrl) :
  reloadIfConfigChange h s = (Ok tt, s1) →
  Extension.createWindow h s
  = if truthy (jjuiPath (globalConfig s1)) then
      let t := terminals s1 in
      (Ok tt,
       {| jjuiTerminal := Some t; globalConfig := globalConfig s1;
          globalConfigJSON := globalConfigJSON s1;
          closeObservers := S (closeObservers s1); terminals := S t;
          trace := trace s1
            ++ [createTerminal t "jjui" (Extension.getWorkspaceFolder h) None;
                sendText t (jjuiPath (globalConfig s1)
                            +:+ (if win32 (platform h) then "; exit" else " && exit"));
                show t false; setTimeout Refocus 100; onDidCloseTerminal] |})
    else (Throw (AssertionError "jjui path is undefined!"), s1).
Proof.
  intros Hr. unfold Extension.createWindow. unfold bind at 1. rewrite Hr.
  rewrite bind_get. unfold bind at 1.
  destruct (truthy (jjuiPath (globalConfig s1))); [|reflexivity].
  unfold bind, newTerminal. run. by rewrite <- !app_assoc.
Qed.

Lemma createWindow_part000 (h : Host) (s s1 : Ctrl) (cwd : string) :
  reloadIfConfigChange h s = (Ok tt, s1) →
  Part000.getWorkspaceFolder h = Ok cwd →
  let t := terminals s1 in
  Part000.createWindow h s
  = (Ok tt,
     {| jjuiTerminal := Some t; globalConfig := globalConfig s1;
        globalConfigJSON := globalConfigJSON s1;
        closeObservers := S (closeObservers s1); terminals := S t;
        trace := trace s1
          ++ [createTerminal t "jjui" cwd
                (Some (if win32 (platform h)
                       then ("powershell.exe",
                             ["-Command"; jjuiPath (globalConfig s1) +:+ "; exit"])
                       else ("/bin/bash",
                             ["-c"; jjuiPath (globalConfig s1) +:+ " && exit"])));
              show t false]
          ++ (if bool_decide (activeTerminal h = Some t) then []
              else [executeCommand "workbench.action.terminal.focus";
                    setTimeout (PollFocus 1) 100])
          ++ [onDidCloseTerminal] |}).
Proof.
  intros Hr Hcwd t. unfold Part000.createWindow. unfold bind at 1. rewrite Hr.
  unfold bind at 1. rewrite Hcwd. unfold await. rewrite bind_get.
  unfold Part000.pollFocus. unfold bind. run. subst t.
  repeat case_bool_decide; cbn in *; try congruence;
    by rewrite <- !app_assoc.
Qed.

Lemma createWindow_part000_throws (h : Host) (s s1 : Ctrl) (e : Error) :
  reloadIfConfigChange h s = (Ok tt, s1) →
  Part000.getWorkspaceFolder h = Throw e →
  Part000.createWindow h s = (Throw e, s1).
Proof.
  intros Hr Hcwd. unfold Part000.createWindow. unfold bind at 1. rewrite Hr.
  unfold bind at 1. by rewrite Hcwd.
Qed.

(** ** The toggle command *)

Lemma toggle_unfocused_run (s : Ctrl) (t : Terminal) :
  jjuiTerminal s = Some t →
  (focusWindow;; onShown) s
  = emits (show t false :: onShownCommands (globalConfig s)) s.
Proof.
  intros Ht. unfold bind. rewrite (focusWindow_present s t Ht).
  unfold onShown, bind. run. by rewrite <- app_assoc.
Qed.

Lemma toggle_focused_run (h : Host) (s : Ctrl) (t : Terminal) :
  jjuiTerminal s = Some t →
  (closeWindow h;; onHide) s
  = emits ((if length (flat_map tabs (tabGroups h)) =? 1 then dispose t
            else executeCommand "workbench.action.openPreviousRecentlyUsedEditorInGroup")
           :: onHideCommands (globalConfig s)) s.
Proof.
  intros Ht. unfold bind. rewrite (closeWindow_run h s t Ht).
  unfold onHide, bind. run. by rewrite <- app_assoc.
Qed.

Lemma toggle_extension_outcome (h : Host) (s : Ctrl) :
  outcome (Extension.toggleJJUI h s) = Ok tt
  ∨ outcome (Extension.toggleJJUI h s) = Throw (AssertionError "jjui path is undefined!").
Proof.
  destruct (jjuiTerminal s) as [t|] eqn:Ht.
  - destruct (windowFocused h s) eqn:Hf.
    + destruct (toggle_focused h s t Ht Hf) as [-> _].
      rewrite (toggle_focused_run h s t Ht). by left.
    + destruct (toggle_unfocused h s t Ht Hf) as [-> _].
      rewrite (toggle_unfocused_run s t Ht). by left.
  - destruct (toggle_absent h s Ht) as [-> _].
    destruct (reload_frame h s) as (cfg & json & msgs & Hr & _).
    unfold bind. rewrite (createWindow_extension h s _ Hr). cbn.
    destruct (truthy (jjuiPath cfg)); [by left | by right].
Qed.

Lemma toggle_part000_outcome (h : Host) (s : Ctrl) :
  outcome (Part000.toggleJJUI h s) = Ok tt
  ∨ outcome (Part000.toggleJJUI h s)
    = Throw (TypeError "Cannot read properties of undefined (reading 'uri')").
Proof.
  destruct (jjuiTerminal s) as [t|] eqn:Ht.
  - destruct (windowFocused h s) eqn:Hf.
    + destruct (toggle_focused h s t Ht Hf) as [_ ->].
      rewrite (toggle_focused_run h s t Ht). by left.
    + destruct (toggle_unfocused h s t Ht Hf) as [_ ->].
      rewrite (toggle_unfocused_run s t Ht). by left.
  - destruct (toggle_absent h s Ht) as [_ ->].
    destruct (reload_frame h s) as (cfg & json & msgs & Hr & _).
    unfold bind. destruct (getWorkspaceFolder_outcome h) as [[cwd Hcwd]|Hthrow].
    + rewrite (createWindow_part000 h s _ cwd Hr Hcwd). by left.
    + rewrite (createWindow_part000_throws h s _ _ Hr Hthrow). by right.
Qed.

(** C9. Bringing to the foreground with no session fails with the
    assertion [Terminal undefined!]: the failure is not caught, it ends
    whatever computation the call is part of, and nothing is requested of
    the host.  With a session the call returns and shows the stored
    terminal; the toggle command calls it only then, so no toggle ends in
    that assertion. *)
Theorem focusWindow_assertion :
  (∀ s, jjuiTerminal s = None →
     focusWindow s = (Throw (AssertionError "Terminal undefined!"), s))
  ∧ (∀ s (k : M unit), jjuiTerminal s = None →
     (focusWindow;; k) s = (Throw (AssertionError "Terminal undefined!"), s))
  ∧ (∀ s t, jjuiTerminal s = Some t →
     outcome (focusWindow s) = Ok tt
     ∧ issued s (after (focusWindow s)) = [show t false]
     ∧ jjuiTerminal (after (focusWindow s)) = Some t)
  ∧ (∀ h s toggle, toggle ∈ [Extension.toggleJJUI; Part000.toggleJJUI] →
     outcome (toggle h s) ≠ Throw (AssertionError "Terminal undefined!")).
Proof.
  split; [|split; [|split]].
  - apply focusWindow_absent.
  - intros s k Ht. unfold bind. by rewrite (focusWindow_absent s Ht).
  - intros s t Ht. rewrite (focusWindow_present s t Ht).
    split; [reflexivity|]. split; [by apply issued_app | exact Ht].
  - intros h s toggle Htoggle.
    apply elem_of_cons in Htoggle as [->| Htoggle].
    { by destruct (toggle_extension_outcome h s) as [-> | ->]. }
    apply elem_of_cons in Htoggle as [->| Htoggle].
    { by destruct (toggle_part000_outcome h s) as [-> | ->]. }
    by apply elem_of_nil in Htoggle.
Qed.

Lemma focusWindow_assertion_witness :
  focusWindow (activate bareHost)
  = (Throw (AssertionError "Terminal undefined!"), activate bareHost)
  ∧ issued (after (Part000.toggleJJUI repoHost (activate repoHost)))
      (after (focusWindow (after (Part000.toggleJJUI repoHost (activate repoHost)))))
    = [show 0 false].
Proof.
  destruct focusWindow_assertion as (Habsent & _ & Hpresent & _).
  split.
  - apply Habsent. reflexivity.
  - apply (Hpresent _ 0). reflexivity.
Defined.

Lemma toggle_absent_extension (h : Host) (s : Ctrl) :
  jjuiTerminal s = None →
  truthy (jjuiPath (globalConfig (after (reloadIfConfigChange h s)))) = true →
  let r := Extension.toggleJJUI h s in
  outcome r = Ok tt
  ∧ jjuiTerminal (after r) = Some (terminals s)
  ∧ ∃ pre, issued s (after r) = pre ++ onShownCommands (globalConfig (after r))
         ∧ createTerminal (terminals s) "jjui" (Extension.getWorkspaceFolder h) None ∈ pre.
Proof.
  intros Ht Hpath r. subst r.
  destruct (toggle_absent h s Ht) as [-> _].
  destruct (reload_frame h s) as (cfg & json & msgs & Hr & _).
  rewrite Hr in Hpath. cbn in Hpath.
  unfold bind. rewrite (createWindow_extension h s _ Hr). cbn. rewrite Hpath.
  unfold onShown, bind. run.
  split; [reflexivity|]. split; [reflexivity|].
  eexists (msgs ++ _). split.
  - apply issued_app3. reflexivity.
  - apply elem_of_app. right. apply elem_of_cons. by left.
Qed.

Lemma toggle_absent_part000 (h : Host) (s : Ctrl) (cwd : string) :
  jjuiTerminal s = None →
  Part000.getWorkspaceFolder h = Ok cwd →
  let r := Part000.toggleJJUI h s in
  outcome r = Ok tt
  ∧ jjuiTerminal (after r) = Some (terminals s)
  ∧ ∃ pre shell, issued s (after r) = pre ++ onShownCommands (globalConfig (after r))
         ∧ createTerminal (terminals s) "jjui" cwd (Some shell) ∈ pre.
Proof.
  intros Ht Hcwd r. subst r.
  destruct (toggle_absent h s Ht) as [_ ->].
  destruct (reload_frame h s) as (cfg & json & msgs & Hr & _).
  unfold bind. rewrite (createWindow_part000 h s _ cwd Hr Hcwd). cbn.
  unfold onShown, bind. run.
  split; [reflexivity|]. split; [reflexivity|].
  eexists (msgs ++ _), _. split.
  - apply issued_app3. reflexivity.
  - apply elem_of_app. right. apply elem_of_cons. by left.
Qed.

(** C1 (amended). For every invocation of the toggle command, in both
    versions.  The session counts as focused exactly when no text editor
    is active and the host's active terminal is the stored handle.  With
    no session, a resolved executable path that is not empty and a
    working directory that resolves, a new session is created and the
    on-shown adjustment is applied.  With a focused session the window is
    hidden and the on-hidden adjustment is applied.  With a session that
    is not focused the session is shown and the on-shown adjustment is
    applied.  In the last two cases the handle stays and no terminal is
    created. *)
Theorem toggle_cases (h : Host) (s : Ctrl) :
  (windowFocused h s = true
   ↔ activeTextEditor h = None ∧ activeTerminal h = jjuiTerminal s)
  ∧ (jjuiTerminal s = None →
     truthy (jjuiPath (globalConfig (after (reloadIfConfigChange h s)))) = true →
     (let r := Extension.toggleJJUI h s in
      outcome r = Ok tt
      ∧ jjuiTerminal (after r) = Some (terminals s)
      ∧ ∃ pre, issued s (after r) = pre ++ onShownCommands (globalConfig (after r))
             ∧ createTerminal (terminals s) "jjui" (Extension.getWorkspaceFolder h) None
               ∈ pre)
     ∧ (∀ cwd, Part000.getWorkspaceFolder h = Ok cwd →
        let r := Part000.toggleJJUI h s in
        outcome r = Ok tt
        ∧ jjuiTerminal (after r) = Some (terminals s)
        ∧ ∃ pre shell,
            issued s (after r) = pre ++ onShownCommands (globalConfig (after r))
            ∧ createTerminal (terminals s) "jjui" cwd (Some shell) ∈ pre))
  ∧ (∀ t toggle,
       toggle ∈ [Extension.toggleJJUI; Part000.toggleJJUI] →
       jjuiTerminal s = Some t →
       let r := toggle h s in
       outcome r = Ok tt
       ∧ jjuiTerminal (after r) = Some t
       ∧ terminals (after r) = terminals s
       ∧ (windowFocused h s = true →
          issued s (after r)
          = (if length (flat_map tabs (tabGroups h)) =? 1 then dispose t
             else executeCommand "workbench.action.openPreviousRecentlyUsedEditorInGroup")
            :: onHideCommands (globalConfig s))
       ∧ (windowFocused h s = false →
          issued s (after r) = show t false :: onShownCommands (globalConfig s))).
Proof.
  split; [apply windowFocused_true|]. split.
  - intros Ht Hpath. split.
    + by apply toggle_absent_extension.
    + intros cwd Hcwd. by apply toggle_absent_part000.
  - intros t toggle Htoggle Ht r. subst r.
    assert (toggle h s = Extension.toggleJJUI h s) as ->.
    { apply elem_of_cons in Htoggle as [->| Htoggle]; [done|].
      apply elem_of_cons in Htoggle as [->| Htoggle].
      - destruct (windowFocused h s) eqn:Hf.
        + by destruct (toggle_focused h s t Ht Hf) as [-> ->].
        + by destruct (toggle_unfocused h s t Ht Hf) as [-> ->].
      - by apply elem_of_nil in Htoggle. }
    destruct (windowFocused h s) eqn:Hf.
    + destruct (toggle_focused h s t Ht Hf) as [-> _].
      rewrite (toggle_focused_run h s t Ht).
      repeat split; try done. intros _. by apply issued_app.
    + destruct (toggle_unfocused h s t Ht Hf) as [-> _].
      rewrite (toggle_unfocused_run s t Ht).
      repeat split; try done. intros _. by apply issued_app.
Qed.

Lemma toggle_cases_witness :
  let s := after (Part000.toggleJJUI repoHost (activate repoHost)) in
  jjuiTerminal (after (Extension.toggleJJUI repoHost (activate repoHost))) = Some 0
  ∧ jjuiTerminal s = Some 0
  ∧ issued s (after (Part000.toggleJJUI repoHost s))
    = [show 0 false; executeCommand "workbench.action.closeAuxiliaryBar"].
Proof.
  intros s.
  destruct (toggle_cases repoHost (activate repoHost)) as (_ & Habsent & _).
  destruct (Habsent eq_refl eq_refl) as ((_ & Hext & _) & Hpart).
  destruct (Hpart "/w/b" eq_refl) as (_ & Hp & _).
  split; [exact Hext|]. split; [exact Hp|].
  destruct (toggle_cases repoHost s) as (_ & _ & Hpresent).
  destruct (Hpresent 0 Part000.toggleJJUI) as (_ & _ & _ & _ & Hshown).
  - apply elem_of_cons; right. apply elem_of_cons; by left.
  - exact Hp.
  - exact (Hshown eq_refl).
Defined.

(** The claim as written fails for [src/extension.ts]: with no session,
    no configured path and no [jjui] on the PATH, the toggle creates no
    session and applies no on-shown adjustment; it ends in the assertion
    of [createWindow]. *)
Lemma toggle_cases_counterexample :
  jjuiTerminal (activate bareHost) = None
  ∧ outcome (Extension.toggleJJUI bareHost (activate bareHost))
    = Throw (AssertionError "jjui path is undefined!")
  ∧ jjuiTerminal (after (Extension.toggleJJUI bareHost (activate bareHost))) = None
  ∧ issued (activate bareHost) (after (Extension.toggleJJUI bareHost (activate bareHost)))
    = []
  ∧ onShownCommands (globalConfig (activate bareHost))
    = [executeCommand "workbench.action.closeAuxiliaryBar"].
Proof. vm_compute. done. Qed.

(** ** The executable is not found *)

(** C2 (amended). With no executable path configured and the lookup on
    the PATH failing, loading the configuration shows the message, goes
    on and leaves the path empty.  A toggle of [src/extension.ts] with no
    session then creates none: [createWindow] fails its assertion before
    it asks the host for a terminal, the on-shown adjustment is not
    applied, no listener is registered, and nothing beyond the message of
    a reload is requested of the host. *)
Theorem executable_not_found (h : Host) :
  jjuiPath (loadConfig h) = "" →
  exec h (if win32 (platform h) then "where jjui" else "which jjui") = None →
  (∀ s, let r := loadExtension h s in
        outcome r = Ok tt
        ∧ issued s (after r) = [showErrorMessage notFoundMessage]
        ∧ jjuiPath (globalConfig (after r)) = ""
        ∧ jjuiTerminal (after r) = jjuiTerminal s)
  ∧ (∀ s, jjuiTerminal s = None → jjuiPath (globalConfig s) = "" →
        let r := Extension.toggleJJUI h s in
        outcome r = Throw (AssertionError "jjui path is undefined!")
        ∧ jjuiTerminal (after r) = None
        ∧ terminals (after r) = terminals s
        ∧ closeObservers (after r) = closeObservers s
        ∧ (issued s (after r) = []
           ∨ issued s (after r) = [showErrorMessage notFoundMessage])).
Proof.
  intros Hcfg Hexec. split.
  - intros s r. subst r.
    unfold loadExtension, bind, setConfig, get, setPath.
    set (cfg := loadConfig h) in *. clearbody cfg. destruct cfg as [pth am pn].
    cbn in Hcfg. subst pth. cbn. unfold findExecutableOnPath.
    replace (exec h _) with (@None string)
      by (rewrite <- Hexec; by destruct (win32 (platform h))).
    cbn. repeat split. by apply issued_app.
  - intros s Ht Hs r. subst r.
    destruct (toggle_absent h s Ht) as [-> _].
    destruct (reload_not_found h s Hcfg Hexec Hs) as (cfg & json & msgs & Hr & Hpath & Hmsgs).
    unfold bind. rewrite (createWindow_extension h s _ Hr). cbn. rewrite Hpath. cbn.
    split; [reflexivity|]. split; [exact Ht|]. split; [reflexivity|].
    split; [reflexivity|].
    destruct Hmsgs as [-> | ->]; [left | right]; apply issued_app; cbn;
      by rewrite ?app_nil_r.
Qed.

Lemma executable_not_found_witness :
  issued (activate bareHost) (after (loadExtension bareHost (activate bareHost)))
  = [showErrorMessage notFoundMessage]
  ∧ outcome (Extension.toggleJJUI bareHost (activate bareHost))
    = Throw (AssertionError "jjui path is undefined!")
  ∧ jjuiTerminal (after (Extension.toggleJJUI bareHost (activate bareHost))) = None.
Proof.
  destruct (executable_not_found bareHost eq_refl eq_refl) as [Hload Htoggle].
  destruct (Hload (activate bareHost)) as (_ & Hissued & _).
  destruct (Htoggle (activate bareHost) eq_refl eq_refl) as (Hthrow & Hnone & _).
  split; [exact Hissued|]. split; [exact Hthrow | exact Hnone].
Defined.

(** The claim as written fails for the second version: with no
    configured path and no [jjui] on the PATH, its toggle creates a
    session all the same, whose shell command is the bare exit suffix.
    The toggle of [src/extension.ts] creates none, and ends in an
    assertion failure. *)
Lemma executable_not_found_counterexample :
  jjuiPath (loadConfig bareHost) = ""
  ∧ exec bareHost "which jjui" = None
  ∧ jjuiTerminal (activate bareHost) = None
  ∧ outcome (Extension.toggleJJUI bareHost (activate bareHost))
    = Throw (AssertionError "jjui path is undefined!")
  ∧ outcome (Part000.toggleJJUI bareHost (activate bareHost)) = Ok tt
  ∧ jjuiTerminal (after (Part000.toggleJJUI bareHost (activate bareHost))) = Some 0
  ∧ issued (activate bareHost) (after (Part000.toggleJJUI bareHost (activate bareHost)))
    = [createTerminal 0 "jjui" "/home/u" (Some ("/bin/bash", ["-c"; " && exit"]));
       show 0 false;
       executeCommand "workbench.action.terminal.focus";
       setTimeout (PollFocus 1) 100;
       onDidCloseTerminal;
       executeCommand "workbench.action.closeAuxiliaryBar"].
Proof. vm_compute. done. Qed.

(** ** The working directory *)

Lemma find_first {A} (f : A → bool) (before : list A) (x : A) (rest : list A) :
  Forall (λ y, f y = false) before → f x = true →
  find f (before ++ x :: rest) = Some x.
Proof.
  intros Hb Hx. induction Hb as [|y before Hy _ IH]; cbn.
  - by rewrite Hx.
  - by rewrite Hy.
Qed.

Lemma find_none {A} (f : A → bool) (l : list A) :
  Forall (λ y, f y = false) l → find f l = None.
Proof. intros Hl. induction Hl as [|y l Hy _ IH]; [done|]. cbn. by rewrite Hy. Qed.

(** C3 (amended). The working directory of a new session.  In the
    second version: the workspace folder that contains the active
    document, or with no text editor the active notebook, when there is
    such a folder; else the first workspace folder that contains a [.jj]
    directory; else the first workspace folder of a list that is not
    empty; else, with no workspace open, the home directory.  In
    [src/extension.ts] there is no search for [.jj] and no notebook: with
    an active text document, the folder that contains it, or the home
    directory when no folder does; without one, the first workspace
    folder, or the home directory when there is none. *)
Theorem getWorkspaceFolder_precedence (h : Host) :
  let active :=
    match activeTextEditor h with
    | Some uri => Some uri
    | None => activeNotebookEditor h
    end in
  let marked := λ folder, existsSync h (pathJoin h (fsPath folder) ".jj") in
  (∀ uri folder, active = Some uri → folderOf h uri = Some folder →
     Part000.getWorkspaceFolder h = Ok (fsPath folder))
  ∧ (active = None ∨ (∃ uri, active = Some uri ∧ folderOf h uri = None) →
     (∀ before folder rest,
        workspaceFolders h = Some (before ++ folder :: rest) →
        Forall (λ f, marked f = false) before → marked folder = true →
        Part000.getWorkspaceFolder h = Ok (fsPath folder))
     ∧ (∀ first rest,
        workspaceFolders h = Some (first :: rest) →
        Forall (λ f, marked f = false) (first :: rest) →
        Part000.getWorkspaceFolder h = Ok (fsPath first))
     ∧ (workspaceFolders h = None →
        Part000.getWorkspaceFolder h = Ok (homedir (platform h))))
  ∧ (∀ uri, activeTextEditor h = Some uri →
     Extension.getWorkspaceFolder h
     = match folderOf h uri with
       | Some folder => fsPath folder
       | None => homedir (platform h)
       end)
  ∧ (activeTextEditor h = None →
     (∀ first rest, workspaceFolders h = Some (first :: rest) →
        Extension.getWorkspaceFolder h = fsPath first)
     ∧ (workspaceFolders h = None ∨ workspaceFolders h = Some [] →
        Extension.getWorkspaceFolder h = homedir (platform h))).
Proof.
  intros active marked. subst active marked.
  unfold Part000.getWorkspaceFolder, Extension.getWorkspaceFolder.
  split; [|split; [|split]].
  - intros uri folder -> Hf. by rewrite Hf.
  - intros Hactive.
    assert (match
              match activeTextEditor h with
              | Some uri => Some uri
              | None => activeNotebookEditor h
              end
            with
            | Some uri => folderOf h uri
            | None => None
            end = None) as ->.
    { destruct Hactive as [-> | (uri & -> & Hf)]; done. }
    split; [|split].
    + intros before folder rest -> Hbefore Hfolder.
      by rewrite (find_first _ before folder rest Hbefore Hfolder).
    + intros first rest -> Hnone. by rewrite (find_none _ _ Hnone).
    + by intros ->.
  - by intros uri ->.
  - intros ->. split.
    + by intros first rest ->.
    + by intros [-> | ->].
Qed.

Lemma getWorkspaceFolder_precedence_witness :
  Part000.getWorkspaceFolder repoHost = Ok "/w/b"
  ∧ Part000.getWorkspaceFolder bareHost = Ok "/home/u"
  ∧ Extension.getWorkspaceFolder emptyWorkspace = "/home/u".
Proof.
  destruct (getWorkspaceFolder_precedence repoHost) as (_ & Hrepo & _).
  destruct (Hrepo (or_introl eq_refl)) as (Hmarked & _).
  destruct (getWorkspaceFolder_precedence bareHost) as (_ & Hbare & _).
  destruct (Hbare (or_introl eq_refl)) as (_ & _ & Hhome).
  destruct (getWorkspaceFolder_precedence emptyWorkspace) as (_ & _ & _ & Hext).
  destruct (Hext eq_refl) as (_ & Hempty).
  split; [|split].
  - apply (Hmarked [ {| fsPath := "/w/a" |} ] {| fsPath := "/w/b" |} []);
      [reflexivity | by repeat constructor | reflexivity].
  - exact (Hhome eq_refl).
  - exact (Hempty (or_intror eq_refl)).
Defined.

(** The claim as written fails for [src/extension.ts]: with no editor
    open and two workspace folders of which only the second holds a
    [.jj] directory, it returns the first. *)
Lemma getWorkspaceFolder_counterexample :
  activeTextEditor repoHost = None
  ∧ activeNotebookEditor repoHost = None
  ∧ workspaceFolders repoHost = Some [ {| fsPath := "/w/a" |}; {| fsPath := "/w/b" |} ]
  ∧ existsSync repoHost (pathJoin repoHost "/w/a" ".jj") = false
  ∧ existsSync repoHost (pathJoin repoHost "/w/b" ".jj") = true
  ∧ Extension.getWorkspaceFolder repoHost = "/w/a"
  ∧ Extension.getWorkspaceFolder repoHost ≠ "/w/b".
Proof. vm_compute. repeat split; done. Qed.

(** In the second version an open workspace without folders is not
    provided for: the loop finds nothing and the first element of the
    empty list has no [uri]. *)
Example getWorkspaceFolder_empty_workspace :
  Part000.getWorkspaceFolder emptyWorkspace
  = Throw (TypeError "Cannot read properties of undefined (reading 'uri')")
  ∧ outcome (Part000.toggleJJUI emptyWorkspace (activate emptyWorkspace))
    = Throw (TypeError "Cannot read properties of undefined (reading 'uri')")
  ∧ jjuiTerminal (after (Part000.toggleJJUI emptyWorkspace (activate emptyWorkspace)))
    = None.
Proof. vm_compute. done. Qed.

(** ** The terminal is closed *)

Lemma closeListener_other (s : Ctrl) (t : Terminal) :
  jjuiTerminal s ≠ Some t → closeListener t s = (Ok tt, s).
Proof.
  intros Ht. unfold closeListener. rewrite bind_get.
  by rewrite bool_decide_eq_false_2.
Qed.

Lemma closeListener_session (s : Ctrl) (t : Terminal) :
  jjuiTerminal s = Some t →
  closeListener t s
  = (Ok tt,
     {| jjuiTerminal := None; globalConfig := globalConfig s;
        globalConfigJSON := globalConfigJSON s; closeObservers := closeObservers s;
        terminals := terminals s;
        trace := trace s ++ onHideCommands (globalConfig s) |}).
Proof.
  intros Ht. unfold closeListener. rewrite bind_get.
  by rewrite bool_decide_eq_true_2.
Qed.

Lemma notifyClose_other (n : nat) (s : Ctrl) (t : Terminal) :
  jjuiTerminal s ≠ Some t → notifyClose n t s = (Ok tt, s).
Proof.
  intros Ht. induction n as [|n IH]; [reflexivity|].
  cbn. unfold bind. by rewrite (closeListener_other s t Ht).
Qed.

Lemma notifyClose_session (n : nat) (s : Ctrl) (t : Terminal) :
  jjuiTerminal s = Some t →
  notifyClose (S n) t s
  = (Ok tt,
     {| jjuiTerminal := None; globalConfig := globalConfig s;
        globalConfigJSON := globalConfigJSON s; closeObservers := closeObservers s;
        terminals := terminals s;
        trace := trace s ++ onHideCommands (globalConfig s) |}).
Proof.
  intros Ht. cbn. unfold bind. rewrite (closeListener_session s t Ht).
  by apply notifyClose_other.
Qed.

Lemma toggle_observed (h : Host) (s : Ctrl) (toggle : Host → M unit) :
  toggle ∈ [Extension.toggleJJUI; Part000.toggleJJUI] →
  observed s → observed (after (toggle h s)).
Proof.
  intros Htoggle Hs.
  destruct (jjuiTerminal s) as [t|] eqn:Ht.
  - assert (∃ es, toggle h s = emits es s) as [es ->]; [|done].
    apply elem_of_cons in Htoggle as [->| Htoggle];
      [|apply elem_of_cons in Htoggle as [->| Htoggle];
        [|by apply elem_of_nil in Htoggle]];
      destruct (windowFocused h s) eqn:Hf.
    + destruct (toggle_focused h s t Ht Hf) as [-> _].
      rewrite (toggle_focused_run h s t Ht). eauto.
    + destruct (toggle_unfocused h s t Ht Hf) as [-> _].
      rewrite (toggle_unfocused_run s t Ht). eauto.
    + destruct (toggle_focused h s t Ht Hf) as [_ ->].
      rewrite (toggle_focused_run h s t Ht). eauto.
    + destruct (toggle_unfocused h s t Ht Hf) as [_ ->].
      rewrite (toggle_unfocused_run s t Ht). eauto.
  - destruct (reload_frame h s) as (cfg & json & msgs & Hr & _).
    apply elem_of_cons in Htoggle as [->| Htoggle];
      [|apply elem_of_cons in Htoggle as [->| Htoggle];
        [|by apply elem_of_nil in Htoggle]].
    + destruct (toggle_absent h s Ht) as [-> _]. unfold bind.
      rewrite (createWindow_extension h s _ Hr). cbn.
      destruct (truthy (jjuiPath cfg)); unfold observed; cbn; [lia|].
      by rewrite Ht.
    + destruct (toggle_absent h s Ht) as [_ ->]. unfold bind.
      destruct (getWorkspaceFolder_outcome h) as [[cwd Hcwd]|Hthrow].
      * rewrite (createWindow_part000 h s _ cwd Hr Hcwd). unfold observed. cbn. lia.
      * rewrite (createWindow_part000_throws h s _ _ Hr Hthrow).
        unfold observed. cbn. by rewrite Ht.
Qed.

Lemma terminalClosed_observed (s : Ctrl) (t : Terminal) :
  observed s → observed (after (terminalClosed t s)).
Proof.
  intros Hs. unfold terminalClosed. rewrite bind_get.
  destruct (decide (jjuiTerminal s = Some t)) as [Ht|Ht].
  - destruct (closeObservers s) as [|n] eqn:Hn.
    + unfold observed in Hs. rewrite Ht, Hn in Hs. specialize (Hs ltac:(done)). lia.
    + rewrite (notifyClose_session n s t Ht). by intros Hnone.
  - rewrite (notifyClose_other _ s t Ht). exact Hs.
Qed.

Lemma fireTimer_observed (h : Host) (callback : Timer) (s : Ctrl) :
  observed s → observed (after (fireTimer h callback s)).
Proof.
  intros Hs. destruct callback as [| |n]; unfold fireTimer.
  - exact Hs.
  - unfold Extension.refocus. rewrite bind_get.
    destruct (jjuiTerminal s); exact Hs.
  - unfold Part000.pollFocus. rewrite bind_get.
    case_bool_decide; [exact Hs|]. destruct (n <? 10); exact Hs.
Qed.

Lemma activate_observed (h : Host) : observed (activate h).
Proof.
  unfold activate.
  destruct (loadExtension_frame h
    {| jjuiTerminal := None; globalConfig := loadConfig h; globalConfigJSON := "";
       closeObservers := 0; terminals := 0; trace := [] |}) as (pth & msgs & -> & _).
  unfold observed. cbn. congruence.
Qed.

Lemma reachable_observed (toggle : Host → M unit) (s : Ctrl) :
  toggle ∈ [Extension.toggleJJUI; Part000.toggleJJUI] →
  reachable toggle s → observed s.
Proof.
  intros Htoggle Hs. induction Hs as [h | h e s _ IH].
  - apply activate_observed.
  - destruct e; unfold handle.
    + by apply toggle_observed.
    + by apply terminalClosed_observed.
    + by apply fireTimer_observed.
    + exact IH.
    + exact IH.
Qed.

(** C7. For every terminal-closed notification: when the closed terminal
    is the stored handle, the handle is cleared and the on-hidden
    adjustment runs, once, however many listeners the session creations
    so far have registered; when it is not, the state is left as it is
    and nothing is requested of the host.  In every state the controller
    can reach, a stored handle has at least one listener. *)
Theorem terminalClosed_once (s : Ctrl) (t : Terminal) :
  let r := terminalClosed t s in
  (jjuiTerminal s = Some t → 1 ≤ closeObservers s →
     outcome r = Ok tt
     ∧ jjuiTerminal (after r) = None
     ∧ issued s (after r) = onHideCommands (globalConfig s)
     ∧ globalConfig (after r) = globalConfig s
     ∧ closeObservers (after r) = closeObservers s)
  ∧ (jjuiTerminal s ≠ Some t → r = (Ok tt, s))
  ∧ (∀ toggle, toggle ∈ [Extension.toggleJJUI; Part000.toggleJJUI] →
     reachable toggle s → jjuiTerminal s ≠ None → 1 ≤ closeObservers s).
Proof.
  intros r. subst r. unfold terminalClosed. rewrite bind_get.
  split; [|split].
  - intros Ht Hn. destruct (closeObservers s) as [|n] eqn:Hobs; [lia|].
    rewrite (notifyClose_session n s t Ht).
    repeat split; [by apply issued_app | by rewrite Hobs].
  - intros Ht. by apply notifyClose_other.
  - intros toggle Htoggle Hs. by apply (reachable_observed toggle).
Qed.

(** Two sessions in a row, hence two listeners; the second session's
    terminal is closed. *)
Lemma terminalClosed_once_witness :
  let s1 := after (Part000.toggleJJUI repoHost (activate repoHost)) in
  let s2 := after (terminalClosed 0 s1) in
  let s3 := after (Part000.toggleJJUI repoHost s2) in
  closeObservers s3 = 2
  ∧ jjuiTerminal s3 = Some 1
  ∧ jjuiTerminal (after (terminalClosed 1 s3)) = None
  ∧ issued s3 (after (terminalClosed 1 s3)) = [setTimeout FocusEditorGroup 200]
  ∧ terminalClosed 0 s3 = (Ok tt, s3).
Proof.
  intros s1 s2 s3.
  destruct (terminalClosed_once s3 1) as (Hsame & _).
  destruct (terminalClosed_once s3 0) as (_ & Hother & _).
  destruct (Hsame eq_refl) as (_ & Hnone & Hissued & _).
  { vm_compute. lia. }
  split; [reflexivity|]. split; [reflexivity|]. split; [exact Hnone|].
  split; [exact Hissued|]. apply Hother. vm_compute. discriminate.
Defined.

(** ** Sample runs *)

Example expandPath_mixed :
  expandPath
    {| homedir := "C:\Users\u";
       env := {[ "APPDATA" := "C:\A"; "X" := "$Y"; "Y" := "z" ]}; win32 := true |}
    "~\%APPDATA%\%X%-$NOPE-%%-50%"
  = "C:\Users\u\C:\A\z--%".
Proof. vm_compute. reflexivity. Qed.

(** The replacement text of the tilde is read by [replace]: [$&] in the
    home directory stands for the tilde, [$$] for a dollar sign. *)
Example expandTilde_patterns :
  expandTilde {| homedir := "/h/$&x$$y"; env := ∅; win32 := false |} "~/a"
  = "/h/~x$y/a".
Proof. vm_compute. reflexivity. Qed.

Example findExecutableOnPath_first_line :
  findExecutableOnPath repoHost "jjui" = Ok "/usr/bin/jjui".
Proof. vm_compute. reflexivity. Qed.

(** Hiding the session when its tab is the last one disposes the terminal
    and applies the on-hidden adjustment; the handle stays until the host
    reports the closure, and the listener then applies the on-hidden
    adjustment again. *)
Example hide_last_tab_then_closed :
  let s1 := after (Part000.toggleJJUI repoHost (activate repoHost)) in
  let s2 := after (Part000.toggleJJUI lastTabHost s1) in
  let s3 := after (terminalClosed 0 s2) in
  issued s1 s2 = [dispose 0; setTimeout FocusEditorGroup 200]
  ∧ jjuiTerminal s2 = Some 0
  ∧ issued s2 s3 = [setTimeout FocusEditorGroup 200]
  ∧ jjuiTerminal s3 = None.
Proof. vm_compute. done. Qed.

(** The retry of the focus request in the second version stops after ten
    attempts. *)
Example pollFocus_bounded (h : Host) (s : Ctrl) :
  Part000.pollFocus h 10 s = (Ok tt, s).
Proof.
  unfold Part000.pollFocus. rewrite bind_get. by case_bool_decide.
Qed.

(** * Further properties *)

(** ** Paths that need no expansion, and the edges of the patterns *)

Lemma getSubstitution_plain (matched before after replacement : string) :
  allChars notDollar replacement = true →
  getSubstitution matched before after replacement = replacement.
Proof.
  induction replacement as [|c r IH]; [done|]. simpl.
  intros [Hc Hr]%andb_prop. unfold notDollar in Hc.
  destruct (Ascii.eqb c "$"); [done|]. by rewrite (IH Hr).
Qed.

Lemma expandDollar_plain (p : Platform) (s : string) :
  allChars notDollar s = true → expandDollar p s = s.
Proof.
  intros Hs. induction s as [|c r IH]; [reflexivity|].
  simpl in Hs. apply andb_prop in Hs as [Hc Hr].
  unfold expandDollar in *. rewrite replaceAll_copy; [by rewrite IH|].
  unfold matchDollar. unfold notDollar in Hc. by destruct (Ascii.eqb c "$").
Qed.

(** X1. A path that does not start with a tilde to expand and holds
    neither [%] nor [$] is returned as it is, on every platform. *)
Theorem expandPath_plain (p : Platform) (pth : string) :
  matchTilde pth = false →
  allChars notPercent pth = true → allChars notDollar pth = true →
  expandPath p pth = pth.
Proof.
  intros Htilde Hpercent Hdollar. unfold expandPath, expandTilde.
  rewrite Htilde, expandPercent_id by done. by apply expandDollar_plain.
Qed.

Lemma expandPath_plain_witness :
  expandPath posix "/usr/local/bin/jjui" = "/usr/local/bin/jjui"
  ∧ expandPath posix "C:\Program Files\jjui\jjui.exe" = "C:\Program Files\jjui\jjui.exe".
Proof.
  split; apply expandPath_plain; reflexivity.
Defined.

(** X2. The tilde.  With a home directory that holds no [$], a lone
    tilde becomes the home directory and a tilde before a slash or a
    backslash is replaced by it, the rest of the path following; a tilde
    before any other character ([~user]) and a tilde that is not the
    first character are left alone. *)
Theorem expandTilde_cases (p : Platform) :
  allChars notDollar (homedir p) = true →
  expandTilde p "~" = homedir p
  ∧ (∀ rest, expandTilde p ("~/" +:+ rest) = homedir p +:+ "/" +:+ rest)
  ∧ (∀ rest, expandTilde p ("~\" +:+ rest) = homedir p +:+ "\" +:+ rest)
  ∧ (∀ c rest, c ≠ "/"%char → c ≠ "\"%char →
       expandTilde p (String "~" (String c rest)) = String "~" (String c rest))
  ∧ (∀ c rest, c ≠ "~"%char → expandTilde p (String c rest) = String c rest).
Proof.
  intros Hhome.
  split; [|split; [|split; [|split]]].
  - change (expandTilde p "~") with (getSubstitution "~" "" "" (homedir p) +:+ "").
    rewrite getSubstitution_plain by done. apply app_empty_r.
  - intros rest.
    change (expandTilde p ("~/" +:+ rest))
      with (getSubstitution "~" "" ("/" +:+ rest) (homedir p) +:+ "/" +:+ rest).
    by rewrite getSubstitution_plain.
  - intros rest.
    change (expandTilde p ("~\" +:+ rest))
      with (getSubstitution "~" "" ("\" +:+ rest) (homedir p) +:+ "\" +:+ rest).
    by rewrite getSubstitution_plain.
  - intros c rest Hslash Hback. unfold expandTilde, matchTilde.
    apply Ascii.eqb_neq in Hslash, Hback. rewrite Hslash, Hback. reflexivity.
  - intros c rest Hc. unfold expandTilde, matchTilde.
    apply Ascii.eqb_neq in Hc. by rewrite Hc.
Qed.

Lemma expandTilde_cases_witness :
  expandTilde posix "~" = "/home/u"
  ∧ expandTilde posix "~/bin/jjui" = "/home/u/bin/jjui"
  ∧ expandTilde posix "~alice/bin/jjui" = "~alice/bin/jjui"
  ∧ expandTilde posix "bin/~/jjui" = "bin/~/jjui".
Proof.
  destruct (expandTilde_cases posix eq_refl) as (Hlone & Hslash & _ & Huser & Hinner).
  split; [exact Hlone|]. split; [exact (Hslash "bin/jjui")|].
  split; [apply Huser; discriminate | apply Hinner; discriminate].
Defined.

(** X3. Every [$NAME], the name being the longest run of letters,
    digits and underscores after the dollar sign, is replaced by what
    [process.env[NAME] || ""] gives: the value of the variable [NAME]
    when it is set; otherwise the text of the property of that name
    which [process.env] inherits, when there is one ([constructor],
    [toString], [__proto__] and the like); otherwise the empty string.
    What precedes and what follows is expanded on its own. *)
Theorem expandDollar_variable (p : Platform) (pre name post : string) :
  name ≠ "" → allChars isWordChar name = true → stopsAt isWordChar post = true →
  expandDollar p (pre +:+ "$" +:+ name +:+ post)
  = expandDollar p pre
    +:+ (match env p !! name, envPrototype name with
         | Some v, _ => v
         | None, Some text => text
         | None, None => ""
         end)
    +:+ expandDollar p post.
Proof.
  intros Hne Hname Hpost. rewrite expandDollar_token by done.
  unfold envOr. by destruct (env p !! name).
Qed.

Lemma expandDollar_variable_witness :
  expandDollar posix "$FOO/bin:$FOO_BAR/bin:$toString"
  = "/opt/bin:/bin:function toString() { [native code] }".
Proof.
  etrans; [apply (expandDollar_variable posix "" "FOO" "/bin:$FOO_BAR/bin:$toString"); done|].
  vm_compute. reflexivity.
Defined.

(** X4. Signs that start no token are kept: a [%] with no later [%], two
    [%] in a row with no later [%], and a [$] that is not followed by a
    letter, a digit or an underscore. *)
Theorem expandPath_lone_signs (p : Platform) (pre post : string) :
  (allChars notPercent pre = true → allChars notPercent post = true →
     expandPercent p (pre +:+ "%" +:+ post) = pre +:+ "%" +:+ post
     ∧ expandPercent p (pre +:+ "%%" +:+ post) = pre +:+ "%%" +:+ post)
  ∧ (stopsAt isWordChar post = true →
     expandDollar p (pre +:+ "$" +:+ post)
     = expandDollar p pre +:+ "$" +:+ expandDollar p post).
Proof.
  split.
  - intros Hpre Hpost.
    assert (Hlone : expandPercent p (String "%" post) = String "%" post).
    { unfold expandPercent. rewrite replaceAll_copy.
      - f_equal. by apply expandPercent_id.
      - unfold matchPercent. cbn [Ascii.eqb].
        replace (Ascii.eqb "%" "%") with true by reflexivity.
        rewrite <- (app_empty_r post), (span_app notPercent post "" Hpost eq_refl).
        by destruct post. }
    split; rewrite expandPercent_copy by done; f_equal.
    + exact Hlone.
    + change ("%%" +:+ post) with (String "%" (String "%" post)).
      unfold expandPercent. rewrite replaceAll_copy; [f_equal; exact Hlone|].
      reflexivity.
  - intros Hpost. rewrite expandDollar_app by reflexivity. f_equal.
    change ("$" +:+ post) with (String "$" post).
    unfold expandDollar. rewrite replaceAll_copy; [reflexivity|].
    unfold matchDollar. replace (Ascii.eqb "$" "$") with true by reflexivity.
    rewrite <- (app_empty_l post), (span_app isWordChar "" post eq_refl Hpost).
    reflexivity.
Qed.

Lemma expandPath_lone_signs_witness :
  expandPercent posix "50%" = "50%"
  ∧ expandPercent posix "a%%b" = "a%%b"
  ∧ expandDollar posix "cost: $/unit" = "cost: $/unit".
Proof.
  destruct (expandPath_lone_signs posix "50" "") as [H50 _].
  destruct (expandPath_lone_signs posix "a" "b") as [Hab _].
  destruct (expandPath_lone_signs posix "cost: " "/unit") as [_ Hcost].
  split; [exact (proj1 (H50 eq_refl eq_refl))|].
  split; [exact (proj2 (Hab eq_refl eq_refl))|].
  etrans; [exact (Hcost eq_refl)|]. vm_compute. reflexivity.
Defined.

(** ** Detecting a change of the settings *)

Lemma unquoteHead_quoteChar (c : ascii) (r : string) :
  unquoteHead (quoteChar c +:+ r) = Some (c, r).
Proof. destruct c as [[] [] [] [] [] [] [] []]; reflexivity. Qed.

Lemma quoteChars_closing (a b r1 r2 : string) :
  quoteChars a +:+ String dquote r1 = quoteChars b +:+ String dquote r2 →
  a = b ∧ r1 = r2.
Proof.
  revert b. induction a as [|c a IH]; intros [|d b] H; cbn [quoteChars] in H.
  - rewrite !app_empty_l in H. by injection H.
  - rewrite app_empty_l, app_assoc' in H. apply (f_equal unquoteHead) in H.
    rewrite unquoteHead_quoteChar in H. discriminate H.
  - rewrite app_empty_l, app_assoc' in H. apply (f_equal unquoteHead) in H.
    rewrite unquoteHead_quoteChar in H. discriminate H.
  - rewrite !app_assoc' in H. pose proof (f_equal unquoteHead H) as Hhead.
    rewrite !unquoteHead_quoteChar in Hhead. injection Hhead as -> Htail.
    destruct (IH b Htail) as [-> ->]. done.
Qed.

Lemma quoteJSON_closing (a b r1 r2 : string) :
  quoteJSON a +:+ r1 = quoteJSON b +:+ r2 → a = b ∧ r1 = r2.
Proof.
  unfold quoteJSON. rewrite !app_cons, !app_assoc', !app_cons, !app_empty_l.
  intros H. injection H as H. by apply quoteChars_closing.
Qed.

Lemma behaviorName_inj (b1 b2 : PanelBehavior) :
  behaviorName b1 = behaviorName b2 → b1 = b2.
Proof. by destruct b1, b2. Qed.

Lemma boolean_closing (a b : bool) (r1 r2 : string) :
  (if a then "true" else "false") +:+ "," +:+ r1
  = (if b then "true" else "false") +:+ "," +:+ r2 →
  a = b ∧ r1 = r2.
Proof.
  destruct a, b; intros H.
  - by do 2 apply String.app_inj in H.
  - rewrite !app_cons in H. discriminate H.
  - rewrite !app_cons in H. discriminate H.
  - by do 2 apply String.app_inj in H.
Qed.

Lemma stringify_injective (c1 c2 : JJUIConfig) :
  stringify c1 = stringify c2 → c1 = c2.
Proof.
  unfold stringify. intros H.
  do 3 apply String.app_inj in H.
  apply quoteJSON_closing in H as [Hpath H].
  do 3 apply String.app_inj in H.
  apply boolean_closing in H as [Ham H].
  do 4 apply String.app_inj in H.
  apply quoteJSON_closing in H as [Hsidebar%behaviorName_inj H].
  do 3 apply String.app_inj in H.
  apply quoteJSON_closing in H as [Hpanel%behaviorName_inj H].
  do 3 apply String.app_inj in H.
  apply quoteJSON_closing in H as [Hsecondary%behaviorName_inj _].
  destruct c1 as [p1 a1 [x1 y1 z1]], c2 as [p2 a2 [x2 y2 z2]]. cbn in *. by subst.
Qed.

(** X5. [JSON.stringify] tells configurations apart: two configurations
    with the same serialized form are the same. *)
Theorem stringify_inj (c1 c2 : JJUIConfig) :
  stringify c1 = stringify c2 → c1 = c2.
Proof. exact (stringify_injective c1 c2). Qed.

Lemma stringify_inj_witness : loadConfig bareHost = loadConfig repoHost.
Proof. apply stringify_inj. reflexivity. Defined.

Lemma reload_on_change (h : Host) (s : Ctrl) (cached : JJUIConfig) :
  globalConfigJSON s = stringify cached →
  (loadConfig h = cached → reloadIfConfigChange h s = (Ok tt, s))
  ∧ (loadConfig h ≠ cached →
     let r := reloadIfConfigChange h s in
     r = loadExtension h s
     ∧ outcome r = Ok tt
     ∧ globalConfigJSON (after r) = stringify (loadConfig h)
     ∧ autoMaximizeWindow (globalConfig (after r)) = autoMaximizeWindow (loadConfig h)
     ∧ panels (globalConfig (after r)) = panels (loadConfig h)).
Proof.
  intros Hjson. rewrite reload_run. split.
  - intros <-. by rewrite bool_decide_eq_false_2 by (by rewrite Hjson; intros []).
  - intros Hne r. subst r. rewrite bool_decide_eq_true_2.
    + destruct (loadExtension_frame h s) as (pth & msgs & -> & _). done.
    + rewrite Hjson. intros Heq. by apply stringify_injective in Heq.
Qed.

(** X6. The configuration is reloaded exactly when the settings have
    changed: if the cached serialized form is that of a configuration
    [cached], a call of [reloadIfConfigChange] leaves the state alone
    when the settings still load as [cached], and otherwise runs
    [loadExtension], after which the serialized form, the auto-maximize
    flag and the panel behaviors are those of the settings. *)
Theorem reload_exactly_on_change (h : Host) (s : Ctrl) (cached : JJUIConfig) :
  globalConfigJSON s = stringify cached →
  (loadConfig h = cached → reloadIfConfigChange h s = (Ok tt, s))
  ∧ (loadConfig h ≠ cached →
     let r := reloadIfConfigChange h s in
     r = loadExtension h s
     ∧ outcome r = Ok tt
     ∧ globalConfigJSON (after r) = stringify (loadConfig h)
     ∧ autoMaximizeWindow (globalConfig (after r)) = autoMaximizeWindow (loadConfig h)
     ∧ panels (globalConfig (after r)) = panels (loadConfig h)).
Proof. exact (reload_on_change h s cached). Qed.

Lemma reload_exactly_on_change_witness :
  let h := {| platform := posix;
              settings := {| setting_jjuiPath := Some "$FOO/jjui";
                             setting_autoMaximizeWindow := Some true;
                             setting_panels := λ _, None |};
              exec := λ _, None; activeTextEditor := None; activeNotebookEditor := None;
              workspaceFolders := None; folderOf := λ _, None;
              pathJoin := λ a b, a +:+ "/" +:+ b; existsSync := λ _, false;
              activeTerminal := None; tabGroups := [] |} in
  reloadIfConfigChange repoHost (activate bareHost) = (Ok tt, activate bareHost)
  ∧ globalConfig (after (reloadIfConfigChange h (activate bareHost)))
    = {| jjuiPath := "/opt/jjui"; autoMaximizeWindow := true;
         panels := {| sidebar := keep; panel := keep; secondarySidebar := hide |} |}.
Proof.
  intros h.
  destruct (reload_exactly_on_change repoHost (activate bareHost) (loadConfig bareHost) eq_refl)
    as [Hsame _].
  destruct (reload_exactly_on_change h (activate bareHost) (loadConfig bareHost) eq_refl)
    as [_ Hchanged].
  split; [exact (Hsame eq_refl)|].
  destruct Hchanged as (-> & _); [discriminate|]. vm_compute. reflexivity.
Defined.

(** ** The executable path after activation *)

Lemma activate_frame (h : Host) :
  ∃ pth msgs,
    activate h
    = {| jjuiTerminal := None;
         globalConfig := {| jjuiPath := pth;
                            autoMaximizeWindow := autoMaximizeWindow (loadConfig h);
                            panels := panels (loadConfig h) |};
         globalConfigJSON := stringify (loadConfig h);
         closeObservers := 0; terminals := 0; trace := msgs |}
    ∧ (msgs = [] ∨ msgs = [showErrorMessage notFoundMessage] ∧ pth = "").
Proof.
  unfold activate.
  destruct (loadExtension_frame h
    {| jjuiTerminal := None; globalConfig := loadConfig h; globalConfigJSON := "";
       closeObservers := 0; terminals := 0; trace := [] |}) as (pth & msgs & -> & Hmsgs).
  exists pth, msgs. split; [reflexivity|].
  destruct Hmsgs as [->|(-> & -> & _)]; [by left | by right].
Qed.

Lemma loadConfig_settings (h h' : Host) :
  settings h' = settings h → loadConfig h' = loadConfig h.
Proof. intros H. unfold loadConfig, getPanelBehavior. by rewrite H. Qed.

Lemma activation_kept (h h' : Host) :
  settings h' = settings h →
  reloadIfConfigChange h' (activate h) = (Ok tt, activate h)
  ∧ (jjuiPath (globalConfig (activate h)) = "" →
     Extension.toggleJJUI h' (activate h)
     = (Throw (AssertionError "jjui path is undefined!"), activate h)).
Proof.
  intros Hsettings.
  assert (Hreload : reloadIfConfigChange h' (activate h) = (Ok tt, activate h)).
  { destruct (activate_frame h) as (pth & msgs & Hact & _).
    apply (reload_on_change h' (activate h) (loadConfig h)).
    - by rewrite Hact.
    - by apply loadConfig_settings. }
  split; [exact Hreload|]. intros Hpath.
  assert (Hnone : jjuiTerminal (activate h) = None).
  { by destruct (activate_frame h) as (pth & msgs & -> & _). }
  destruct (toggle_absent h' (activate h) Hnone) as [-> _].
  unfold bind. rewrite (createWindow_extension h' _ _ Hreload). by rewrite Hpath.
Qed.

(** X7. The executable path found at activation is kept for as long as
    the settings stay the same: a later toggle under unchanged settings
    reloads nothing and does not look on the PATH again, whatever the
    lookup would return by then.  In [src/extension.ts] a toggle after a
    failed lookup therefore keeps failing its assertion, without any
    request to the host. *)
Theorem activation_path_kept (h h' : Host) :
  settings h' = settings h →
  reloadIfConfigChange h' (activate h) = (Ok tt, activate h)
  ∧ (jjuiPath (globalConfig (activate h)) = "" →
     Extension.toggleJJUI h' (activate h)
     = (Throw (AssertionError "jjui path is undefined!"), activate h)).
Proof. exact (activation_kept h h'). Qed.

Lemma activation_path_kept_witness :
  exec repoHost "which jjui" ≠ None
  ∧ Extension.toggleJJUI repoHost (activate bareHost)
    = (Throw (AssertionError "jjui path is undefined!"), activate bareHost).
Proof.
  split; [discriminate|].
  destruct (activation_path_kept bareHost repoHost eq_refl) as [_ Hfails].
  exact (Hfails eq_refl).
Defined.

(** X8. With an executable path in the settings, [loadExtension] takes
    the expansion of that path, never looks on the PATH and shows no
    message: the result is the same whatever the lookup would return.
    When the expansion is empty (a path that is a single unset variable),
    the toggle of [src/extension.ts] fails its assertion although no
    message was ever shown. *)
Theorem configured_path_used (h : Host) :
  jjuiPath (loadConfig h) ≠ "" →
  (∀ s, let r := loadExtension h s in
        outcome r = Ok tt
        ∧ issued s (after r) = []
        ∧ jjuiPath (globalConfig (after r))
          = expandPath (platform h) (jjuiPath (loadConfig h)))
  ∧ (expandPath (platform h) (jjuiPath (loadConfig h)) = "" →
     outcome (Extension.toggleJJUI h (activate h))
     = Throw (AssertionError "jjui path is undefined!")
     ∧ trace (after (Extension.toggleJJUI h (activate h))) = []).
Proof.
  intros Hset.
  assert (Hload : ∀ s, loadExtension h s
    = (Ok tt,
       {| jjuiTerminal := jjuiTerminal s;
          globalConfig := {| jjuiPath := expandPath (platform h) (jjuiPath (loadConfig h));
                             autoMaximizeWindow := autoMaximizeWindow (loadConfig h);
                             panels := panels (loadConfig h) |};
          globalConfigJSON := stringify (loadConfig h);
          closeObservers := closeObservers s; terminals := terminals s;
          trace := trace s |})).
  { intros s. unfold loadExtension, bind, setConfig, get, setPath.
    set (cfg := loadConfig h) in *. clearbody cfg.
    destruct cfg as [[|c pth] am pn]; [done|]. reflexivity. }
  split.
  - intros s r. subst r. rewrite Hload. repeat split.
    apply issued_app. cbn. by rewrite app_nil_r.
  - intros Hempty.
    assert (Hact : activate h
      = {| jjuiTerminal := None;
           globalConfig := {| jjuiPath := "";
                              autoMaximizeWindow := autoMaximizeWindow (loadConfig h);
                              panels := panels (loadConfig h) |};
           globalConfigJSON := stringify (loadConfig h);
           closeObservers := 0; terminals := 0; trace := [] |}).
    { unfold activate. rewrite Hload, Hempty. reflexivity. }
    destruct (activation_kept h h eq_refl) as [_ Hfails].
    rewrite Hfails by (by rewrite Hact). by rewrite Hact.
Qed.

Lemma configured_path_used_witness :
  let h := {| platform := posix;
              settings := {| setting_jjuiPath := Some "$JJUI_BIN";
                             setting_autoMaximizeWindow := None;
                             setting_panels := λ _, None |};
              exec := λ _, Some "/usr/bin/jjui";
              activeTextEditor := None; activeNotebookEditor := None;
              workspaceFolders := None; folderOf := λ _, None;
              pathJoin := λ a b, a +:+ "/" +:+ b; existsSync := λ _, false;
              activeTerminal := None; tabGroups := [] |} in
  jjuiPath (globalConfig (activate h)) = ""
  ∧ trace (after (Extension.toggleJJUI h (activate h))) = [].
Proof.
  intros h. destruct (configured_path_used h) as [Hload Htoggle]; [discriminate|].
  split; [reflexivity|]. by destruct (Htoggle eq_refl) as [_ ->].
Defined.

(** ** The working directory, again *)

(** X9. In the second version the resolution of the working directory
    fails in one situation only: no workspace folder contains the active
    document or notebook, and a workspace is open whose folder list is
    empty.  The failure is a [TypeError]. *)
Theorem getWorkspaceFolder_throws_iff (h : Host) :
  let active :=
    match activeTextEditor h with
    | Some uri => Some uri
    | None => activeNotebookEditor h
    end in
  (∃ e, Part000.getWorkspaceFolder h = Throw e)
  ↔ (active = None ∨ ∃ uri, active = Some uri ∧ folderOf h uri = None)
    ∧ workspaceFolders h = Some [].
Proof.
  intros active. subst active. unfold Part000.getWorkspaceFolder.
  destruct (match activeTextEditor h with
            | Some uri => Some uri
            | None => activeNotebookEditor h
            end) as [uri|] eqn:Hactive.
  - destruct (folderOf h uri) as [folder|] eqn:Hfolder.
    + split; [by intros [e He]|]. intros [[Hn|(u & [= <-] & Hu)] _]; congruence.
    + destruct (workspaceFolders h) as [[|first rest]|]; cbn.
      * split; [|by eauto]. intros _. split; [right; eauto | done].
      * split; [|by intros [_ ?]]. intros [e He].
        by destruct (existsSync h _); [|destruct (find _ rest)].
      * split; [by intros [e He] | by intros [_ ?]].
  - destruct (workspaceFolders h) as [[|first rest]|]; cbn.
    + split; [|by eauto]. intros _. by split; [left|].
    + split; [|by intros [_ ?]]. intros [e He].
      by destruct (existsSync h _); [|destruct (find _ rest)].
    + split; [by intros [e He] | by intros [_ ?]].
Qed.

Lemma getWorkspaceFolder_throws_iff_witness :
  ∃ e, Part000.getWorkspaceFolder emptyWorkspace = Throw e.
Proof.
  apply (getWorkspaceFolder_throws_iff emptyWorkspace). split; [by left | reflexivity].
Defined.

(** X10. Whatever the working directory resolves to in the second
    version is the path of one of the open workspace folders, the path of
    the folder the host names for the active editor, or the home
    directory. *)
Theorem getWorkspaceFolder_result (h : Host) (cwd : string) :
  Part000.getWorkspaceFolder h = Ok cwd →
  (∃ uri folder, (activeTextEditor h = Some uri
                  ∨ activeTextEditor h = None ∧ activeNotebookEditor h = Some uri)
                 ∧ folderOf h uri = Some folder ∧ cwd = fsPath folder)
  ∨ (∃ folders folder, workspaceFolders h = Some folders ∧ folder ∈ folders
                       ∧ cwd = fsPath folder)
  ∨ (workspaceFolders h = None ∧ cwd = homedir (platform h)).
Proof.
  unfold Part000.getWorkspaceFolder.
  destruct (activeTextEditor h) as [uri|] eqn:Htext.
  - destruct (folderOf h uri) as [folder|] eqn:Hfolder.
    + intros [= <-]. left. exists uri, folder. eauto.
    + destruct (workspaceFolders h) as [folders|]; [|intros [= <-]; by right; right].
      destruct (find _ folders) as [folder|] eqn:Hfind.
      * intros [= <-]. right; left. exists folders, folder.
        apply find_some in Hfind as [Hin _]. apply list_elem_of_In in Hin. eauto.
      * destruct folders as [|first rest]; [done|]. intros [= <-].
        right; left. exists (first :: rest), first. split; [done|]. split; [|done].
        apply elem_of_cons. by left.
  - destruct (activeNotebookEditor h) as [uri|] eqn:Hnote.
    + destruct (folderOf h uri) as [folder|] eqn:Hfolder.
      * intros [= <-]. left. exists uri, folder. eauto.
      * destruct (workspaceFolders h) as [folders|]; [|intros [= <-]; by right; right].
        destruct (find _ folders) as [folder|] eqn:Hfind.
        -- intros [= <-]. right; left. exists folders, folder.
           apply find_some in Hfind as [Hin _]. apply list_elem_of_In in Hin. eauto.
        -- destruct folders as [|first rest]; [done|]. intros [= <-].
           right; left. exists (first :: rest), first. split; [done|]. split; [|done].
           apply elem_of_cons. by left.
    + destruct (workspaceFolders h) as [folders|]; [|intros [= <-]; by right; right].
      destruct (find _ folders) as [folder|] eqn:Hfind.
      * intros [= <-]. right; left. exists folders, folder.
        apply find_some in Hfind as [Hin _]. apply list_elem_of_In in Hin. eauto.
      * destruct folders as [|first rest]; [done|]. intros [= <-].
        right; left. exists (first :: rest), first. split; [done|]. split; [|done].
        apply elem_of_cons. by left.
Qed.

Lemma getWorkspaceFolder_result_witness :
  ∃ folder, folder ∈ [ {| fsPath := "/w/a" |}; {| fsPath := "/w/b" |} ]
            ∧ "/w/b" = fsPath folder.
Proof.
  destruct (getWorkspaceFolder_result repoHost "/w/b" eq_refl)
    as [(uri & folder & _ & Hfolder & _) | [(folders & folder & Hopen & Hin & Hcwd) | [Hopen _]]].
  - discriminate Hfolder.
  - injection Hopen as <-. by exists folder.
  - discriminate Hopen.
Defined.

(** ** The focus flag *)

(** X11. On a change of the active editor or terminal the flag
    [jjuiFocus] is published, and nothing else happens.  The flag is true
    exactly when no text editor is active and the active terminal equals
    the stored handle; with no session stored this makes the flag true
    whenever neither an editor nor a terminal is active. *)
Theorem updateFocusContext_flag (h : Host) (s : Ctrl) :
  ∃ flag,
    updateFocusContext h s = emit (setContext "jjuiFocus" flag) s
    ∧ (flag = true ↔ activeTextEditor h = None ∧ activeTerminal h = jjuiTerminal s)
    ∧ (jjuiTerminal s = None →
       (flag = true ↔ activeTextEditor h = None ∧ activeTerminal h = None)).
Proof.
  exists (windowFocused h s). split; [reflexivity|]. split.
  - apply windowFocused_true.
  - intros Ht. rewrite windowFocused_true. by rewrite Ht.
Qed.

Lemma updateFocusContext_flag_witness :
  issued (activate bareHost) (after (updateFocusContext bareHost (activate bareHost)))
  = [setContext "jjuiFocus" true].
Proof.
  destruct (updateFocusContext_flag bareHost (activate bareHost)) as (flag & -> & _ & Hnone).
  destruct (Hnone eq_refl) as [_ Htrue]. rewrite (Htrue (conj eq_refl eq_refl)).
  reflexivity.
Defined.

(** ** Closures *)

(** X12. A second notification for the same terminal changes nothing:
    after the listeners have handled the closure of a terminal, handling
    it again leaves the state alone and requests nothing. *)
Theorem terminalClosed_again (s : Ctrl) (t : Terminal) :
  terminalClosed t (after (terminalClosed t s)) = (Ok tt, after (terminalClosed t s)).
Proof.
  assert (Hdone : jjuiTerminal (after (terminalClosed t s)) ≠ Some t
                  ∨ closeObservers (after (terminalClosed t s)) = 0).
  { unfold terminalClosed. rewrite bind_get.
    destruct (decide (jjuiTerminal s = Some t)) as [Ht|Ht].
    - destruct (closeObservers s) as [|n] eqn:Hn; [by right|].
      rewrite (notifyClose_session n s t Ht). by left.
    - rewrite (notifyClose_other _ s t Ht). by left. }
  set (s1 := after (terminalClosed t s)) in *.
  unfold terminalClosed. rewrite bind_get.
  destruct Hdone as [Hother | ->]; [by apply notifyClose_other | reflexivity].
Qed.

(** X13. Hiding the session while its tab is the only one open: the
    toggle disposes the terminal and applies the on-hidden adjustment,
    the handle staying in place; when the host then reports the closure
    the handle is cleared and the on-hidden adjustment is applied a
    second time. *)
Theorem hide_last_tab_twice (h : Host) (s : Ctrl) (t : Terminal)
    (toggle : Host → M unit) :
  toggle ∈ [Extension.toggleJJUI; Part000.toggleJJUI] →
  jjuiTerminal s = Some t → 1 ≤ closeObservers s →
  windowFocused h s = true → length (flat_map tabs (tabGroups h)) = 1 →
  let s1 := after (toggle h s) in
  let s2 := after (terminalClosed t s1) in
  issued s s1 = dispose t :: onHideCommands (globalConfig s)
  ∧ jjuiTerminal s1 = Some t
  ∧ issued s1 s2 = onHideCommands (globalConfig s)
  ∧ jjuiTerminal s2 = None.
Proof.
  intros Htoggle Ht Hobs Hf Htabs s1 s2. subst s1 s2.
  assert (toggle h s = (closeWindow h;; onHide) s) as ->.
  { destruct (toggle_focused h s t Ht Hf) as [He Hp].
    apply elem_of_cons in Htoggle as [->| Htoggle]; [done|].
    apply elem_of_cons in Htoggle as [->| Htoggle]; [done|].
    by apply elem_of_nil in Htoggle. }
  rewrite (toggle_focused_run h s t Ht), Htabs. cbn [Nat.eqb].
  set (s1 := after (emits _ s)).
  split; [by apply issued_app|]. split; [exact Ht|].
  unfold terminalClosed. rewrite bind_get.
  destruct (closeObservers s1) as [|n] eqn:Hn; [cbn in Hn; lia|].
  rewrite (notifyClose_session n s1 t Ht). split; [by apply issued_app | done].
Qed.

Lemma hide_last_tab_twice_witness :
  let s := after (Part000.toggleJJUI repoHost (activate repoHost)) in
  let s1 := after (Part000.toggleJJUI lastTabHost s) in
  issued s s1 = [dispose 0; setTimeout FocusEditorGroup 200]
  ∧ issued s1 (after (terminalClosed 0 s1)) = [setTimeout FocusEditorGroup 200].
Proof.
  intros s s1.
  destruct (hide_last_tab_twice lastTabHost s 0 Part000.toggleJJUI)
    as (Hfirst & _ & Hsecond & _).
  - apply elem_of_cons; right. apply elem_of_cons; by left.
  - reflexivity.
  - vm_compute. lia.
  - reflexivity.
  - reflexivity.
  - split; [exact Hfirst | exact Hsecond].
Defined.

(** ** The retry of the focus request *)

Lemma issued_emits (s : Ctrl) (es : list Effect) :
  issued s (after (emits es s)) = es.
Proof. by apply issued_app. Qed.

Lemma pollFocus_run (h : Host) (n : nat) (s : Ctrl) :
  Part000.pollFocus h n s
  = emits (if bool_decide (activeTerminal h = jjuiTerminal s) then []
           else if n <? 10 then [focusCommand; setTimeout (PollFocus (S n)) 100]
           else []) s.
Proof.
  unfold Part000.pollFocus. rewrite bind_get.
  case_bool_decide; [|destruct (n <? 10)]; unfold bind; run;
    rewrite <- ?app_assoc, ?app_nil_r; by destruct s.
Qed.

Lemma emits_emits (a b : list Effect) (s : Ctrl) :
  after (emits b (after (emits a s))) = after (emits (a ++ b) s).
Proof. run. by rewrite app_assoc. Qed.

Lemma pollChain_requests (hs : list Host) (n : nat) (s : Ctrl) :
  ∃ es, pollChain hs n s = after (emits es s)
        ∧ occurrences focusCommand es ≤ 10 - n
        ∧ length es = 2 * occurrences focusCommand es.
Proof.
  revert n s. induction hs as [|h rest IH]; intros n s.
  - exists []. split; [|split; [unfold occurrences; cbn; lia | done]].
    run. rewrite app_nil_r. by destruct s.
  - cbn [pollChain]. rewrite pollFocus_run.
    destruct (bool_decide (activeTerminal h = jjuiTerminal s)) eqn:Hactive.
    + exists []. rewrite issued_emits.
      split; [|split; [unfold occurrences; cbn; lia | done]]. by rewrite bool_decide_eq_false_2 by by intros ?%elem_of_nil.
    + destruct (n <? 10) eqn:Hn.
      * apply Nat.ltb_lt in Hn.
        rewrite issued_emits.
        rewrite bool_decide_eq_true_2
          by (apply elem_of_cons; right; apply elem_of_cons; by left).
        destruct (IH (S n) (after (emits [focusCommand; setTimeout (PollFocus (S n)) 100] s)))
          as (es & -> & Hcount & Hlen).
        exists ([focusCommand; setTimeout (PollFocus (S n)) 100] ++ es).
        split; [apply emits_emits|].
        unfold occurrences in *. rewrite filter_app, !List.length_app, Hlen.
        replace (length (filter (λ x, x = focusCommand)
                   [focusCommand; setTimeout (PollFocus (S n)) 100])) with 1 by reflexivity.
        cbn [length]. lia.
      * exists []. rewrite issued_emits.
        split; [|split; [unfold occurrences; cbn; lia | done]].
        by rewrite bool_decide_eq_false_2 by by intros ?%elem_of_nil.
Qed.

(** X14. The retry of the focus request in the second version is
    bounded: along the chain of [pollFocus] calls of one session
    creation, whatever the host answers, the focus command is issued at
    most ten times, every command is paired with one timer, and the
    stored handle is left alone. *)
Theorem pollFocus_at_most_ten (hs : list Host) (s : Ctrl) :
  let s' := pollChain hs 0 s in
  occurrences focusCommand (issued s s') ≤ 10
  ∧ length (issued s s') = 2 * occurrences focusCommand (issued s s')
  ∧ jjuiTerminal s' = jjuiTerminal s.
Proof.
  intros s'. subst s'.
  destruct (pollChain_requests hs 0 s) as (es & -> & Hcount & Hlen).
  rewrite issued_emits. split; [lia|]. by split.
Qed.

Lemma pollChain_inactive (hs : list Host) (n : nat) (s : Ctrl) :
  Forall (λ h, activeTerminal h ≠ jjuiTerminal s) hs →
  ∃ es, pollChain hs n s = after (emits es s)
        ∧ occurrences focusCommand es = (10 - n) `min` length hs.
Proof.
  revert n s. induction hs as [|h rest IH]; intros n s Hhs.
  - exists []. split; [|unfold occurrences; cbn; lia]. run. rewrite app_nil_r. by destruct s.
  - apply Forall_cons in Hhs as [Hh Hrest].
    cbn [pollChain]. rewrite pollFocus_run.
    rewrite (bool_decide_eq_false_2 (activeTerminal h = jjuiTerminal s)) by done.
    destruct (n <? 10) eqn:Hn.
    + apply Nat.ltb_lt in Hn. rewrite issued_emits.
      rewrite bool_decide_eq_true_2
        by (apply elem_of_cons; right; apply elem_of_cons; by left).
      destruct (IH (S n) (after (emits [focusCommand; setTimeout (PollFocus (S n)) 100] s)) Hrest)
        as (es & -> & Hcount).
      exists ([focusCommand; setTimeout (PollFocus (S n)) 100] ++ es).
      split; [apply emits_emits|].
      unfold occurrences in *. rewrite filter_app, List.length_app, Hcount.
      replace (length (filter (λ x, x = focusCommand)
                 [focusCommand; setTimeout (PollFocus (S n)) 100])) with 1 by reflexivity.
      cbn [length]. lia.
    + apply Nat.ltb_ge in Hn. exists []. rewrite issued_emits.
      rewrite bool_decide_eq_false_2 by by intros ?%elem_of_nil.
      split; [done|]. unfold occurrences. cbn. lia.
Qed.

(** X15. When the host never reports the session's terminal as the
    active one, the chain of [pollFocus] calls issues the focus command
    once per call until ten have been issued, and then stops. *)
Theorem pollFocus_gives_up (hs : list Host) (s : Ctrl) :
  Forall (λ h, activeTerminal h ≠ jjuiTerminal s) hs →
  occurrences focusCommand (issued s (pollChain hs 0 s)) = 10 `min` length hs.
Proof.
  intros Hhs. destruct (pollChain_inactive hs 0 s Hhs) as (es & -> & Hcount).
  by rewrite issued_emits.
Qed.

Lemma pollFocus_gives_up_witness :
  let s := after (Part000.toggleJJUI repoHost (activate repoHost)) in
  occurrences focusCommand (issued s (pollChain (replicate 25 repoHost) 1 s)) = 9
  ∧ occurrences focusCommand (issued s (pollChain (replicate 25 repoHost) 0 s)) = 10.
Proof.
  intros s. split; [vm_compute; reflexivity|].
  apply (pollFocus_gives_up (replicate 25 repoHost) s).
  apply Forall_replicate. discriminate.
Defined.

(** ** What every reachable state satisfies *)

Lemma created_app (n : nat) (l l' : list Effect) :
  created n (l ++ l')
  = match created n l with Some m => created m l' | None => None end.
Proof.
  revert n. induction l as [|e l IH]; intros n; [done|]. cbn.
  destruct e; try apply IH; by case_match.
Qed.

Lemma occurrences_app (e : Effect) (l l' : list Effect) :
  occurrences e (l ++ l') = occurrences e l + occurrences e l'.
Proof. unfold occurrences. by rewrite filter_app, List.length_app. Qed.

Lemma occurrences_cons_ne (e x : Effect) (l : list Effect) :
  x ≠ e → occurrences e (x :: l) = occurrences e l.
Proof. intros Hne. unfold occurrences. by rewrite filter_cons_False. Qed.

Lemma quiet_onShown (n : nat) (c : JJUIConfig) :
  created n (onShownCommands c) = Some n
  ∧ occurrences onDidCloseTerminal (onShownCommands c) = 0.
Proof. by config_cases c. Qed.

Lemma quiet_onHide (n : nat) (c : JJUIConfig) :
  created n (onHideCommands c) = Some n
  ∧ occurrences onDidCloseTerminal (onHideCommands c) = 0.
Proof. by config_cases c. Qed.

Lemma consistent_emits (es : list Effect) (s : Ctrl) :
  consistent s →
  created (terminals s) es = Some (terminals s)
  ∧ occurrences onDidCloseTerminal es = 0 →
  consistent (after (emits es s)).
Proof.
  intros (Hobs & Hhandle & Htrace & Hcached & Hreg) [Hes Hquiet].
  split; [exact Hobs|]. split; [exact Hhandle|]. split; [|split; [exact Hcached|]].
  - cbn. by rewrite created_app, Htrace.
  - cbn. rewrite occurrences_app, Hquiet, Hreg. lia.
Qed.

Lemma consistent_closed (s : Ctrl) :
  consistent s →
  consistent
    {| jjuiTerminal := None; globalConfig := globalConfig s;
       globalConfigJSON := globalConfigJSON s; closeObservers := closeObservers s;
       terminals := terminals s;
       trace := trace s ++ onHideCommands (globalConfig s) |}.
Proof.
  intros (Hobs & Hhandle & Htrace & Hcached & Hreg).
  destruct (quiet_onHide (terminals s) (globalConfig s)) as [Hes Hquiet].
  split; [exact Hobs|]. split; [done|]. split; [|split; [exact Hcached|]].
  - cbn. by rewrite created_app, Htrace.
  - cbn. rewrite occurrences_app, Hquiet, Hreg. lia.
Qed.

Lemma reload_consistent (h : Host) (s : Ctrl) :
  consistent s →
  ∃ s1, reloadIfConfigChange h s = (Ok tt, s1) ∧ consistent s1
        ∧ jjuiTerminal s1 = jjuiTerminal s.
Proof.
  intros Hs. rewrite reload_run. case_bool_decide; [|by exists s].
  destruct (loadExtension_frame h s) as (pth & msgs & -> & Hmsgs).
  eexists. split; [reflexivity|]. split; [|reflexivity].
  destruct Hs as (Hobs & Hhandle & Htrace & _ & Hreg).
  split; [exact Hobs|]. split; [exact Hhandle|]. split; [|split].
  - cbn. rewrite created_app, Htrace. by destruct Hmsgs as [->|(-> & _)].
  - by exists (loadConfig h).
  - cbn. rewrite occurrences_app, Hreg.
    destruct Hmsgs as [->|(-> & _)];
      (replace (occurrences onDidCloseTerminal _) with 0 by reflexivity); lia.
Qed.

Lemma toggle_consistent (h : Host) (s : Ctrl) (toggle : Host → M unit) :
  toggle ∈ [Extension.toggleJJUI; Part000.toggleJJUI] →
  consistent s → consistent (after (toggle h s)).
Proof.
  intros Htoggle Hs.
  destruct (jjuiTerminal s) as [t|] eqn:Ht.
  - assert (Hlt : (t <? terminals s) = true).
    { apply Nat.ltb_lt. by apply Hs. }
    assert (toggle h s = Extension.toggleJJUI h s) as ->.
    { apply elem_of_cons in Htoggle as [->| Htoggle]; [done|].
      apply elem_of_cons in Htoggle as [->| Htoggle];
        [|by apply elem_of_nil in Htoggle].
      destruct (windowFocused h s) eqn:Hf.
      - by destruct (toggle_focused h s t Ht Hf) as [-> ->].
      - by destruct (toggle_unfocused h s t Ht Hf) as [-> ->]. }
    destruct (windowFocused h s) eqn:Hf.
    + destruct (toggle_focused h s t Ht Hf) as [-> _].
      rewrite (toggle_focused_run h s t Ht). apply consistent_emits; [done|].
      destruct (quiet_onHide (terminals s) (globalConfig s)) as [Hes Hquiet].
      destruct (_ =? 1); cbn [created]; rewrite ?Hlt; (split; [exact Hes|]);
        by rewrite occurrences_cons_ne.
    + destruct (toggle_unfocused h s t Ht Hf) as [-> _].
      rewrite (toggle_unfocused_run s t Ht). apply consistent_emits; [done|].
      destruct (quiet_onShown (terminals s) (globalConfig s)) as [Hes Hquiet].
      cbn [created]. rewrite Hlt. split; [exact Hes|].
      by rewrite occurrences_cons_ne.
  - destruct (reload_consistent h s Hs) as (s1 & Hr & Hs1 & Ht1).
    pose proof Hs1 as (Hobs & Hhandle & Htrace & Hcached & Hreg).
    assert (Hnew : (terminals s1 <? S (terminals s1)) = true) by (apply Nat.ltb_lt; lia).
    apply elem_of_cons in Htoggle as [->| Htoggle];
      [|apply elem_of_cons in Htoggle as [->| Htoggle];
        [|by apply elem_of_nil in Htoggle]].
    + destruct (toggle_absent h s Ht) as [-> _]. unfold bind.
      rewrite (createWindow_extension h s s1 Hr).
      destruct (truthy (jjuiPath (globalConfig s1))); [|exact Hs1].
      cbv beta iota zeta. rewrite onShown_run. apply consistent_emits.
      * split; [cbn; by rewrite Hobs|]. split; [intros t [= <-]; cbn; lia|].
        split; [|split; [exact Hcached|]]; cbn [trace terminals closeObservers].
        -- rewrite created_app, Htrace. cbn [created]. by rewrite Nat.eqb_refl, !Hnew.
        -- rewrite occurrences_app, Hreg.
           (replace (occurrences onDidCloseTerminal _) with 1 by reflexivity). lia.
      * apply quiet_onShown.
    + destruct (toggle_absent h s Ht) as [_ ->]. unfold bind.
      destruct (getWorkspaceFolder_outcome h) as [[cwd Hcwd]|Hthrow].
      * rewrite (createWindow_part000 h s s1 cwd Hr Hcwd).
        cbv beta iota zeta. rewrite onShown_run. apply consistent_emits.
        -- split; [cbn; by rewrite Hobs|]. split; [intros t [= <-]; cbn; lia|].
           split; [|split; [exact Hcached|]]; cbn [trace terminals closeObservers].
           ++ rewrite created_app, Htrace. cbn [created app].
              rewrite Nat.eqb_refl, Hnew. by destruct (bool_decide _).
           ++ rewrite occurrences_app, Hreg.
              destruct (bool_decide _);
                (replace (occurrences onDidCloseTerminal _) with 1 by reflexivity); lia.
        -- apply quiet_onShown.
      * rewrite (createWindow_part000_throws h s s1 _ Hr Hthrow). exact Hs1.
Qed.

Lemma terminalClosed_consistent (s : Ctrl) (t : Terminal) :
  consistent s → consistent (after (terminalClosed t s)).
Proof.
  intros Hs. unfold terminalClosed. rewrite bind_get.
  destruct (decide (jjuiTerminal s = Some t)) as [Ht|Ht].
  - destruct (closeObservers s) as [|n] eqn:Hn; [exact Hs|].
    rewrite (notifyClose_session n s t Ht). by apply consistent_closed.
  - rewrite (notifyClose_other _ s t Ht). exact Hs.
Qed.

Lemma fireTimer_consistent (h : Host) (callback : Timer) (s : Ctrl) :
  consistent s → consistent (after (fireTimer h callback s)).
Proof.
  intros Hs. destruct callback as [| |n]; unfold fireTimer.
  - by apply (consistent_emits [_]).
  - unfold Extension.refocus. rewrite bind_get.
    destruct (jjuiTerminal s) as [t|] eqn:Ht; [|exact Hs].
    assert (Hlt : (t <? terminals s) = true).
    { apply Nat.ltb_lt. by apply Hs. }
    assert ((emit (show t false);;
             emit (executeCommand "workbench.action.terminal.focus")) s
            = emits [show t false; executeCommand "workbench.action.terminal.focus"] s) as ->.
    { unfold bind. run. by rewrite <- app_assoc. }
    apply consistent_emits; [done|]. cbn [created]. by rewrite Hlt.
  - rewrite pollFocus_run. apply consistent_emits; [done|].
    by destruct (bool_decide _), (n <? 10).
Qed.

Lemma activate_consistent (h : Host) : consistent (activate h).
Proof.
  destruct (activate_frame h) as (pth & msgs & -> & Hmsgs).
  split; [done|]. split; [done|]. split; [|split].
  - by destruct Hmsgs as [->|(-> & _)].
  - by exists (loadConfig h).
  - by destruct Hmsgs as [->|(-> & _)].
Qed.

Lemma reachable_consistent (toggle : Host → M unit) (s : Ctrl) :
  toggle ∈ [Extension.toggleJJUI; Part000.toggleJJUI] →
  reachable toggle s → consistent s.
Proof.
  intros Htoggle Hs. induction Hs as [h | h e s _ IH].
  - apply activate_consistent.
  - destruct e; unfold handle.
    + by apply toggle_consistent.
    + by apply terminalClosed_consistent.
    + by apply fireTimer_consistent.
    + by apply (consistent_emits [_]).
    + by apply (consistent_emits [_]).
Qed.

Lemma creations_cons (e : Effect) (l : list Effect) :
  creations (e :: l)
  = (match e with createTerminal _ _ _ _ => 1 | _ => 0 end) + creations l.
Proof. by destruct e. Qed.

Ltac split_guard H :=
  match type of H with
  | context [if ?b then _ else _] => destruct b eqn:?; [|discriminate H]
  end.

Lemma created_creations (l : list Effect) (n m : nat) :
  created n l = Some m → m = n + creations l.
Proof.
  revert n. induction l as [|e l IH]; intros n H.
  - injection H as <-. cbn. lia.
  - destruct e; cbn [created creations] in *; try split_guard H;
      apply IH in H; lia.
Qed.

Lemma created_has (l : list Effect) (n m t : nat) :
  created n l = Some m → n ≤ t < m →
  ∃ name cwd shell, createTerminal t name cwd shell ∈ l.
Proof.
  revert n. induction l as [|e l IH]; intros n H Ht.
  - injection H as <-. lia.
  - assert (Hrest : ∀ k, created k l = Some m → k ≤ t < m →
                         ∃ name cwd shell, createTerminal t name cwd shell ∈ e :: l).
    { intros k Hk Hkt. destruct (IH k Hk Hkt) as (name & cwd & shell & Hin).
      exists name, cwd, shell. by apply elem_of_cons; right. }
    destruct e; cbn [created] in H; try split_guard H; try (by apply (Hrest n)).
    match goal with Heq : (_ =? n) = true |- _ => apply Nat.eqb_eq in Heq as -> end.
    destruct (decide (t = n)) as [->|Hne].
    + exists name, cwd, shell. apply elem_of_cons. by left.
    + apply (Hrest (S n) H). lia.
Qed.

Lemma created_target (pre post : list Effect) (e : Effect) (n m t : nat) :
  created n (pre ++ e :: post) = Some m → target e = Some t →
  ∃ k, created n pre = Some k ∧ n ≤ k ∧ t < k.
Proof.
  rewrite created_app. destruct (created n pre) as [k|] eqn:Hpre; [|done].
  intros H Ht. exists k. split; [done|].
  apply created_creations in Hpre.
  destruct e; try discriminate Ht; injection Ht as ->; cbn [created] in H;
    split_guard H;
    match goal with Hlt : (_ <? k) = true |- _ => apply Nat.ltb_lt in Hlt; lia end.
Qed.

(** X16. Every session creation registers one more listener for closed
    terminals and none is ever removed: in every state the controller
    can reach, the listeners registered, the terminals handed out, the
    requests to create a terminal and the registrations of a listener
    are equal in number. *)
Theorem listeners_never_removed (toggle : Host → M unit) (s : Ctrl) :
  toggle ∈ [Extension.toggleJJUI; Part000.toggleJJUI] →
  reachable toggle s →
  closeObservers s = terminals s
  ∧ terminals s = creations (trace s)
  ∧ occurrences onDidCloseTerminal (trace s) = creations (trace s).
Proof.
  intros Htoggle Hs.
  destruct (reachable_consistent toggle s Htoggle Hs) as (Hobs & _ & Hcreated & _ & Hreg).
  apply created_creations in Hcreated. cbn in Hcreated.
  split; [exact Hobs|]. split; [exact Hcreated|]. lia.
Qed.

Lemma two_sessions_reachable : reachable Part000.toggleJJUI twoSessions.
Proof.
  exact (reachable_event _ repoHost Toggle _
           (reachable_event _ repoHost (TerminalClosed 0) _
              (reachable_event _ repoHost Toggle _ (reachable_activate _ repoHost)))).
Qed.

Lemma part000_listed : Part000.toggleJJUI ∈ [Extension.toggleJJUI; Part000.toggleJJUI].
Proof. apply elem_of_cons; right. apply elem_of_cons; by left. Defined.

Lemma listeners_never_removed_witness :
  let s := twoSessions in
  jjuiTerminal s = Some 1 ∧ closeObservers s = 2
  ∧ occurrences onDidCloseTerminal (trace s) = creations (trace s).
Proof.
  intros s.
  destruct (listeners_never_removed Part000.toggleJJUI s part000_listed two_sessions_reachable)
    as (_ & _ & Hreg).
  split; [vm_compute; reflexivity|]. split; [vm_compute; reflexivity | exact Hreg].
Defined.

(** X17. The controller only ever shows, writes to or disposes a
    terminal it has asked the host to create earlier, and the stored
    handle is always such a terminal: in every reachable state, a
    request on a terminal is preceded in the trace by the request that
    created that terminal. *)
Theorem requests_target_created (toggle : Host → M unit) (s : Ctrl) :
  toggle ∈ [Extension.toggleJJUI; Part000.toggleJJUI] →
  reachable toggle s →
  (∀ pre e post t,
     trace s = pre ++ e :: post → target e = Some t →
     ∃ name cwd shell, createTerminal t name cwd shell ∈ pre)
  ∧ (∀ t, jjuiTerminal s = Some t →
     ∃ name cwd shell, createTerminal t name cwd shell ∈ trace s).
Proof.
  intros Htoggle Hs.
  destruct (reachable_consistent toggle s Htoggle Hs) as (_ & Hhandle & Hcreated & _).
  split.
  - intros pre e post t Htrace Htarget. rewrite Htrace in Hcreated.
    destruct (created_target pre post e 0 _ t Hcreated Htarget) as (k & Hpre & _ & Hlt).
    apply (created_has pre 0 k t Hpre). lia.
  - intros t Ht. apply (created_has (trace s) 0 (terminals s) t Hcreated).
    split; [lia | by apply Hhandle].
Qed.

Lemma requests_target_created_witness :
  let s := twoSessions in
  ∃ name cwd shell, createTerminal 1 name cwd shell ∈ trace s.
Proof.
  intros s.
  destruct (requests_target_created Part000.toggleJJUI s part000_listed two_sessions_reachable)
    as [_ Hhandle].
  apply Hhandle. vm_compute. reflexivity.
Defined.

(** X18. In every reachable state the cached configuration is the one
    loaded last, up to the executable path: there is a configuration
    [cached] with the cached auto-maximize flag and panel behaviors such
    that, under any host, [reloadIfConfigChange] leaves the state alone
    exactly when the settings load as [cached]. *)
Theorem reload_iff_settings_changed (toggle : Host → M unit) (s : Ctrl) :
  toggle ∈ [Extension.toggleJJUI; Part000.toggleJJUI] →
  reachable toggle s →
  ∃ cached,
    autoMaximizeWindow (globalConfig s) = autoMaximizeWindow cached
    ∧ panels (globalConfig s) = panels cached
    ∧ ∀ h, reloadIfConfigChange h s = (Ok tt, s) ↔ loadConfig h = cached.
Proof.
  intros Htoggle Hs.
  destruct (reachable_consistent toggle s Htoggle Hs)
    as (_ & _ & _ & (cached & Hjson & Ham & Hpn) & _).
  exists cached. split; [exact Ham|]. split; [exact Hpn|]. intros h.
  destruct (reload_on_change h s cached Hjson) as [Hsame Hchanged].
  split; [|exact Hsame]. intros Hr.
  destruct (decide (stringify (loadConfig h) = stringify cached)) as [Heq|Hne].
  { by apply stringify_injective. }
  destruct Hchanged as (_ & _ & Hnew & _); [intros Heq; apply Hne; by rewrite Heq|].
  rewrite Hr in Hnew. cbn in Hnew. by rewrite Hjson in Hnew.
Qed.

Lemma reload_iff_settings_changed_witness :
  reloadIfConfigChange bareHost twoSessions = (Ok tt, twoSessions).
Proof.
  destruct (reload_iff_settings_changed Part000.toggleJJUI twoSessions
              part000_listed two_sessions_reachable) as (cached & _ & _ & Hiff).
  apply Hiff. transitivity (loadConfig repoHost); [reflexivity|].
  apply Hiff. vm_compute. reflexivity.
Defined.

(** ** The lookup on the PATH *)

Lemma string_rev_app_app (a b acc : string) :
  String.rev_app (a +:+ b) acc = String.rev_app b (String.rev_app a acc).
Proof.
  revert acc. induction a as [|c a IH]; intros acc; [reflexivity|].
  rewrite app_cons. cbn. apply IH.
Qed.

Lemma string_rev_app_acc (a acc : string) :
  String.rev_app a acc = String.rev a +:+ acc.
Proof.
  unfold String.rev. revert acc. induction a as [|c a IH]; intros acc; [reflexivity|].
  cbn. rewrite IH, (IH (String c "")), app_assoc'. reflexivity.
Qed.

Lemma string_rev_app (a b : string) : String.rev (a +:+ b) = String.rev b +:+ String.rev a.
Proof. unfold String.rev at 1. by rewrite string_rev_app_app, string_rev_app_acc. Qed.

Lemma string_rev_cons (c : ascii) (s : string) :
  String.rev (String c s) = String.rev s +:+ String c "".
Proof. exact (string_rev_app (String c "") s). Qed.

Lemma string_rev_rev (s : string) : String.rev (String.rev s) = s.
Proof.
  induction s as [|c s IH]; [reflexivity|].
  by rewrite string_rev_cons, string_rev_app, IH.
Qed.

Lemma allChars_rev (p : ascii → bool) (s : string) :
  allChars p (String.rev s) = allChars p s.
Proof.
  induction s as [|c s IH]; [reflexivity|].
  rewrite string_rev_cons, allChars_app, IH. cbn. by rewrite andb_true_r, andb_comm.
Qed.

Lemma trimStart_split (s : string) :
  ∃ sp, s = sp +:+ trimStart s ∧ allChars isSpace sp = true
        ∧ stopsAt isSpace (trimStart s) = true.
Proof.
  induction s as [|c s (sp & Hs & Hsp & Hstop)]; [by exists ""|].
  cbn [trimStart]. destruct (isSpace c) eqn:Hc.
  - exists (String c sp). rewrite app_cons, <- Hs. cbn. by rewrite Hc.
  - exists "". cbn. by rewrite Hc.
Qed.

Lemma allChars_trimStart (p : ascii → bool) (s : string) :
  allChars p s = true → allChars p (trimStart s) = true.
Proof.
  destruct (trimStart_split s) as (sp & Hs & _). rewrite Hs at 1.
  rewrite allChars_app. by intros [_ ?]%andb_prop.
Qed.

Lemma trimStart_spaces (s : string) :
  allChars isSpace s = true → trimStart s = "".
Proof.
  induction s as [|c s IH]; [done|]. cbn.
  intros [Hc Hs]%andb_prop. rewrite Hc. by apply IH.
Qed.

Lemma trimStart_app (s x : string) :
  allChars isSpace s = false → trimStart (s +:+ x) = trimStart s +:+ x.
Proof.
  induction s as [|c s IH]; [done|]. rewrite app_cons. cbn.
  destruct (isSpace c); [|done]. cbn. apply IH.
Qed.

Lemma trim_trailing_space (s : string) (c : ascii) :
  isSpace c = true → trim (s +:+ String c "") = trim s.
Proof.
  intros Hc. unfold trim. destruct (allChars isSpace s) eqn:Hs.
  - rewrite (trimStart_spaces s Hs).
    rewrite (trimStart_spaces (s +:+ String c "")); [reflexivity|].
    rewrite allChars_app, Hs. cbn. by rewrite Hc.
  - rewrite (trimStart_app s _ Hs), string_rev_app. cbn [String.rev String.rev_app].
    rewrite app_cons, app_empty_l. cbn [trimStart]. by rewrite Hc.
Qed.

Lemma beforeLF_noLF (s : string) : allChars notLF (beforeLF s) = true.
Proof.
  induction s as [|c s IH]; [done|]. cbn [beforeLF].
  destruct (Ascii.eqb c "010") eqn:Hc; [done|].
  cbn [allChars]. unfold notLF at 1. rewrite Hc. exact IH.
Qed.

Lemma beforeLF_id (s : string) : allChars notLF s = true → beforeLF s = s.
Proof.
  induction s as [|c s IH]; [done|]. cbn [allChars beforeLF].
  intros [Hc Hs]%andb_prop. unfold notLF in Hc. apply negb_true_iff in Hc.
  by rewrite Hc, (IH Hs).
Qed.

Lemma beforeCRLF_id (s : string) : allChars notLF s = true → beforeCRLF s = s.
Proof.
  induction s as [|c s IH]; [done|]. cbn [allChars]. intros [Hc Hs]%andb_prop.
  cbn [beforeCRLF]. destruct s as [|d s]; [done|].
  pose proof Hs as Hs'. cbn [allChars] in Hs'. apply andb_prop in Hs' as [Hd _].
  unfold notLF in Hd. apply negb_true_iff in Hd. rewrite Hd, andb_false_r.
  f_equal. by apply IH.
Qed.

Lemma beforeCRLF_cons (c d : ascii) (r : string) :
  beforeCRLF (String c (String d r))
  = if Ascii.eqb c "013" && Ascii.eqb d "010" then ""
    else String c (beforeCRLF (String d r)).
Proof. reflexivity. Qed.

Lemma beforeLF_cons (c : ascii) (r : string) :
  beforeLF (String c r) = if Ascii.eqb c "010" then "" else String c (beforeLF r).
Proof. reflexivity. Qed.

(** The first line of a text whose first line feed follows [line]: [line]
    itself, or [line] without the carriage return that ends it. *)
Lemma first_line (line rest : string) :
  allChars notLF line = true →
  beforeLF (beforeCRLF (line +:+ String "010" rest)) = line
  ∨ ∃ l, line = l +:+ String "013" ""
         ∧ beforeLF (beforeCRLF (line +:+ String "010" rest)) = l.
Proof.
  induction line as [|c line IH]; intros Hline.
  - left. rewrite app_empty_l. destruct rest; reflexivity.
  - cbn [allChars] in Hline. apply andb_prop in Hline as [Hc Hline].
    unfold notLF in Hc. apply negb_true_iff in Hc.
    destruct line as [|d line].
    + change (String c "" +:+ String "010" rest) with (String c (String "010" rest)).
      rewrite beforeCRLF_cons.
      replace (Ascii.eqb "010" "010") with true by reflexivity. rewrite andb_true_r.
      destruct (Ascii.eqb c "013") eqn:Hcr.
      * right. exists "". apply Ascii.eqb_eq in Hcr as ->. by split.
      * left. rewrite beforeLF_cons, Hc. f_equal. destruct rest; reflexivity.
    + change (String c (String d line) +:+ String "010" rest)
        with (String c (String d (line +:+ String "010" rest))).
      rewrite beforeCRLF_cons.
      pose proof Hline as Hline'. cbn [allChars] in Hline'.
      apply andb_prop in Hline' as [Hd _]. unfold notLF in Hd. apply negb_true_iff in Hd.
      rewrite Hd, andb_false_r, beforeLF_cons, Hc.
      change (String d (line +:+ String "010" rest))
        with (String d line +:+ String "010" rest).
      destruct (IH Hline) as [-> | (l & Hl & ->)]; [by left|].
      right. exists (String c l). by rewrite Hl, app_cons.
Qed.

(** X19. The lookup of the executable takes the first line of what
    [which] or [where] prints, trimmed; every further line is ignored,
    and so is the carriage return before the line feed.  A failing
    command gives the error [<executable> not found]. *)
Theorem findExecutableOnPath_first_line_only (h : Host) (executable line rest : string) :
  let command :=
    if win32 (platform h) then "where " +:+ executable else "which " +:+ executable in
  allChars notLF line = true →
  (exec h command = Some (line +:+ String "010" rest) ∨ exec h command = Some line →
   findExecutableOnPath h executable = Ok (trim line))
  ∧ (exec h command = None →
     findExecutableOnPath h executable = Throw (PlainError (executable +:+ " not found"))).
Proof.
  intros command Hline. subst command. unfold findExecutableOnPath. split.
  - intros [-> | ->].
    + destruct (first_line line rest Hline) as [-> | (l & -> & ->)]; [done|].
      f_equal. symmetry. by apply trim_trailing_space.
    + by rewrite (beforeCRLF_id _ Hline), (beforeLF_id _ Hline).
  - by intros ->.
Qed.

Lemma findExecutableOnPath_first_line_only_witness :
  let h := {| platform := {| homedir := "C:\Users\u"; env := ∅; win32 := true |};
              settings := noSettings;
              exec := λ command,
                if bool_decide (command = "where jjui")
                then Some ("C:\bin\jjui.exe" +:+ String "013" ""
                           +:+ String "010" ("D:\old\jjui.exe" +:+ String "013" (String "010" "")))
                else None;
              activeTextEditor := None; activeNotebookEditor := None;
              workspaceFolders := None; folderOf := λ _, None;
              pathJoin := λ a b, a +:+ "\" +:+ b; existsSync := λ _, false;
              activeTerminal := None; tabGroups := [] |} in
  findExecutableOnPath h "jjui" = Ok "C:\bin\jjui.exe"
  ∧ findExecutableOnPath h "jj" = Throw (PlainError "jj not found").
Proof.
  intros h.
  destruct (findExecutableOnPath_first_line_only h "jjui"
              ("C:\bin\jjui.exe" +:+ String "013" "")
              ("D:\old\jjui.exe" +:+ String "013" (String "010" "")) eq_refl) as [Hfound _].
  destruct (findExecutableOnPath_first_line_only h "jj" "" "" eq_refl) as [_ Hnot].
  split; [|exact (Hnot eq_refl)].
  etrans; [apply Hfound; by left|]. vm_compute. reflexivity.
Defined.

(** X20. A path found on the PATH holds no line feed and neither starts
    nor ends with white space. *)
Theorem findExecutableOnPath_clean (h : Host) (executable found : string) :
  findExecutableOnPath h executable = Ok found →
  allChars notLF found = true
  ∧ stopsAt isSpace found = true
  ∧ stopsAt isSpace (String.rev found) = true.
Proof.
  unfold findExecutableOnPath. destruct (exec h _) as [stdout|]; [|done].
  intros [= <-]. set (line := beforeLF (beforeCRLF stdout)).
  assert (Hline : allChars notLF line = true) by apply beforeLF_noLF.
  unfold trim.
  destruct (trimStart_split line) as (sp & Hsplit & Hsp & Hstop).
  set (t := trimStart line) in *.
  destruct (trimStart_split (String.rev t)) as (sp' & Hsplit' & Hsp' & Hstop').
  set (y := trimStart (String.rev t)) in *.
  split; [|split].
  - rewrite allChars_rev. apply allChars_trimStart. rewrite allChars_rev.
    by apply allChars_trimStart.
  - assert (Ht : t = String.rev y +:+ String.rev sp').
    { by rewrite <- string_rev_app, <- Hsplit', string_rev_rev. }
    destruct (String.rev y) as [|c r]; [done|].
    rewrite Ht, app_cons in Hstop. exact Hstop.
  - by rewrite string_rev_rev.
Qed.

Lemma findExecutableOnPath_clean_witness :
  allChars notLF "/usr/bin/jjui" = true
  ∧ stopsAt isSpace "/usr/bin/jjui" = true
  ∧ stopsAt isSpace (String.rev "/usr/bin/jjui") = true.
Proof. apply (findExecutableOnPath_clean repoHost "jjui"). vm_compute. reflexivity. Defined.

(** ** The requests of a session creation *)

(** X21. What a toggle asks of the host when it creates the session,
    the settings being unchanged since the last load.  In
    [src/extension.ts], with a path that is not empty: a terminal named
    [jjui] in the working directory, the path followed by the exit
    suffix of the platform as its input, the terminal shown, a timer of
    100 ms to show it again, the listener for closed terminals, then the
    on-shown adjustment.  In the second version: a terminal whose shell
    runs the path followed by the exit suffix, the terminal shown, a
    first focus request with its timer unless the host already reports
    that terminal as active, the listener, then the on-shown
    adjustment. *)
Theorem session_creation_requests (h : Host) (s : Ctrl) :
  jjuiTerminal s = None →
  globalConfigJSON s = stringify (loadConfig h) →
  let t := terminals s in
  let path := jjuiPath (globalConfig s) in
  (path ≠ "" →
   issued s (after (Extension.toggleJJUI h s))
   = [createTerminal t "jjui" (Extension.getWorkspaceFolder h) None;
      sendText t (path +:+ (if win32 (platform h) then "; exit" else " && exit"));
      show t false; setTimeout Refocus 100; onDidCloseTerminal]
     ++ onShownCommands (globalConfig s))
  ∧ (∀ cwd, Part000.getWorkspaceFolder h = Ok cwd →
     issued s (after (Part000.toggleJJUI h s))
     = [createTerminal t "jjui" cwd
          (Some (if win32 (platform h)
                 then ("powershell.exe", ["-Command"; path +:+ "; exit"])
                 else ("/bin/bash", ["-c"; path +:+ " && exit"])));
        show t false]
       ++ (if bool_decide (activeTerminal h = Some t) then []
           else [focusCommand; setTimeout (PollFocus 1) 100])
       ++ [onDidCloseTerminal] ++ onShownCommands (globalConfig s)).
Proof.
  intros Ht Hjson t path. subst t path.
  assert (Hr : reloadIfConfigChange h s = (Ok tt, s)).
  { rewrite reload_run. by rewrite bool_decide_eq_false_2 by (by rewrite Hjson; intros []). }
  split.
  - intros Hpath. destruct (toggle_absent h s Ht) as [-> _].
    assert (Htruthy : truthy (jjuiPath (globalConfig s)) = true)
      by (by destruct (jjuiPath (globalConfig s))).
    unfold bind. rewrite (createWindow_extension h s s Hr), Htruthy.
    cbv beta iota zeta. rewrite onShown_run.
    apply issued_app. cbn. by rewrite <- app_assoc.
  - intros cwd Hcwd. destruct (toggle_absent h s Ht) as [_ ->].
    unfold bind. rewrite (createWindow_part000 h s s cwd Hr Hcwd).
    cbv beta iota zeta. rewrite onShown_run.
    apply issued_app.
    destruct (bool_decide (activeTerminal h = Some (terminals s)));
      cbn; by rewrite <- !app_assoc.
Qed.

Lemma session_creation_requests_witness :
  issued (activate repoHost) (after (Extension.toggleJJUI repoHost (activate repoHost)))
  = [createTerminal 0 "jjui" "/w/a" None; sendText 0 "/usr/bin/jjui && exit";
     show 0 false; setTimeout Refocus 100; onDidCloseTerminal;
     executeCommand "workbench.action.closeAuxiliaryBar"].
Proof.
  destruct (session_creation_requests repoHost (activate repoHost) eq_refl eq_refl)
    as [Hext _].
  rewrite Hext by discriminate. reflexivity.
Defined.

(** X22. [expandPath "~/tools/jjui"] with home directory [/home/u] is
    [/home/u/tools/jjui]; [expandPath "$FOO/bin"] with [FOO=/opt] is
    [/opt/bin]; and on every input, a [$]-variable that is unset in the
    environment and whose name is not that of a property [process.env]
    inherits, standing in the text the [$] replacement scans, is
    replaced by the empty string: the result is the expansion of what
    precedes it followed by the expansion of what follows it.  For an
    input without [%] and without a leading tilde to expand, that text
    is the input itself. *)
Theorem expandPath_unset_plain_name :
  (∀ p, homedir p = "/home/u" → expandPath p "~/tools/jjui" = "/home/u/tools/jjui")
  ∧ (∀ p, env p !! "FOO" = Some "/opt" → expandPath p "$FOO/bin" = "/opt/bin")
  ∧ (∀ p pth pre name post,
       expandPercent p (expandTilde p pth) = pre +:+ "$" +:+ name +:+ post →
       name ≠ "" → allChars isWordChar name = true →
       stopsAt isWordChar post = true →
       env p !! name = None → envPrototype name = None →
       expandPath p pth = expandDollar p pre +:+ expandDollar p post)
  ∧ (∀ p pre name post,
       matchTilde (pre +:+ "$" +:+ name +:+ post) = false →
       allChars notPercent pre = true → allChars notPercent post = true →
       name ≠ "" → allChars isWordChar name = true →
       stopsAt isWordChar post = true →
       env p !! name = None → envPrototype name = None →
       expandPath p (pre +:+ "$" +:+ name +:+ post)
       = expandDollar p pre +:+ expandDollar p post).
Proof.
  assert (Hscanned : ∀ p pth pre name post,
       expandPercent p (expandTilde p pth) = pre +:+ "$" +:+ name +:+ post →
       name ≠ "" → allChars isWordChar name = true →
       stopsAt isWordChar post = true →
       env p !! name = None → envPrototype name = None →
       expandPath p pth = expandDollar p pre +:+ expandDollar p post).
  { intros p pth pre name post Hscan Hne Hname Hpost Hunset Hplain.
    unfold expandPath. rewrite Hscan, expandDollar_token by done.
    unfold envOr. by rewrite Hunset, Hplain. }
  split; [|split; [|split]].
  - intros p Hhome. unfold expandPath, expandTilde. simpl matchTilde. cbv iota.
    rewrite Hhome. reflexivity.
  - intros p Hfoo. unfold expandPath.
    change (expandTilde p "$FOO/bin") with ("" +:+ "$" +:+ "FOO" +:+ "/bin").
    rewrite expandPercent_id by reflexivity.
    rewrite expandDollar_token by done.
    unfold envOr. rewrite Hfoo. reflexivity.
  - exact Hscanned.
  - intros p pre name post Htilde Hpre Hpost' Hne Hname Hpost Hunset Hplain.
    apply (Hscanned p _ pre name post); try done.
    unfold expandTilde. rewrite Htilde. apply expandPercent_id.
    rewrite !allChars_app, Hpre, Hpost'.
    by rewrite (allChars_impl _ _ _ wordChar_notPercent Hname).
Qed.

Lemma expandPath_unset_plain_name_witness :
  let p := {| homedir := "/home/u"; env := {[ "FOO" := "/opt" ]}; win32 := false |} in
  expandPath p "~/tools/jjui" = "/home/u/tools/jjui"
  ∧ expandPath p "$FOO/bin" = "/opt/bin"
  ∧ expandPath p "~/x/$NOPE/bin" = "/home/u/x//bin".
Proof.
  intros p. destruct expandPath_unset_plain_name as (Hhome & Hfoo & Hunset & _).
  split; [|split].
  - apply Hhome. reflexivity.
  - apply Hfoo. vm_compute. reflexivity.
  - rewrite (Hunset p "~/x/$NOPE/bin" "/home/u/x/" "NOPE" "/bin");
      [reflexivity | reflexivity | discriminate | reflexivity | reflexivity
      | vm_compute; reflexivity | vm_compute; reflexivity].
Defined.

(** X23. [expandPath] also expands [%NAME%] tokens: every token is
    replaced by what [process.env[NAME] || ""] gives (the value of the
    variable [NAME] when it is set, otherwise the text of an inherited
    property of that name, otherwise the empty string), and this
    replacement runs before the replacement of [$]-variables on the same
    string: the value put in for [%NAME%] is scanned for [$]-variables,
    the value put in for [$NAME] is not scanned for [%NAME%] tokens. *)
Theorem expandPath_percent_before_dollar (p : Platform) :
  (∀ pre name post,
     allChars notPercent pre = true → name ≠ "" → allChars notPercent name = true →
     expandPercent p (pre +:+ "%" +:+ name +:+ "%" +:+ post)
     = pre +:+ (match env p !! name, envPrototype name with
                | Some v, _ => v
                | None, Some text => text
                | None, None => ""
                end)
       +:+ expandPercent p post)
  ∧ (∀ ts last,
       Forall wellFormedToken ts → allChars notPercent last = true →
       expandPercent p (percentTokens ts last) = percentValues p ts last)
  ∧ (∀ pth, expandPath p pth = expandDollar p (expandPercent p (expandTilde p pth)))
  ∧ (∀ name,
       name ≠ "" → allChars notPercent name = true →
       expandPath p ("%" +:+ name +:+ "%") = expandDollar p (envOr p name))
  ∧ (∀ name v,
       name ≠ "" → allChars isWordChar name = true → env p !! name = Some v →
       expandPath p ("$" +:+ name) = v).
Proof.
  split; [|split; [|split; [|split]]].
  - intros pre name post Hpre Hne Hname. rewrite expandPercent_token by done.
    unfold envOr. by destruct (env p !! name).
  - apply expandPercent_tokens.
  - reflexivity.
  - intros name Hne Hname. unfold expandPath.
    change (expandTilde p ("%" +:+ name +:+ "%")) with ("" +:+ "%" +:+ name +:+ "%" +:+ "").
    rewrite expandPercent_token by done.
    by rewrite app_empty_l, app_empty_r.
  - intros name v Hne Hname Hv. unfold expandPath.
    change (expandTilde p ("$" +:+ name)) with (String "$" name).
    rewrite expandPercent_id.
    + rewrite <- (app_empty_r name).
      change (String "$" (name +:+ "")) with ("" +:+ "$" +:+ name +:+ "").
      rewrite expandDollar_token by done.
      unfold envOr. rewrite Hv. apply app_empty_r.
    + simpl. apply (allChars_impl _ _ _ wordChar_notPercent Hname).
Qed.

Lemma expandPath_percent_before_dollar_witness :
  let p := {| homedir := "C:\Users\u";
              env := {[ "APPDATA" := "C:\A"; "X" := "$Y"; "Y" := "%X%" ]};
              win32 := true |} in
  expandPercent p "bin;%APPDATA%\jj;%NOPE%;%X%" = "bin;C:\A\jj;;$Y"
  ∧ expandPath p "%X%" = "%X%"
  ∧ expandPath p "$Y" = "%X%".
Proof.
  intros p.
  destruct (expandPath_percent_before_dollar p) as (_ & Htokens & _ & Hpercent & Hdollar).
  split; [|split].
  - apply (Htokens [("bin;", "APPDATA"); ("\jj;", "NOPE"); (";", "X")] "").
    + repeat constructor; discriminate.
    + reflexivity.
  - etrans; [apply (Hpercent "X"); [discriminate | reflexivity] |].
    vm_compute. reflexivity.
  - apply (Hdollar "Y" "%X%"); [discriminate | reflexivity | vm_compute; reflexivity].
Defined.
